(** * Policy exclusion statistics: a shallow embedding of
    [policy_exclusions_stats.py] and the properties of its parser and
    of its aggregation step.

    The embedding follows the script: [xml.etree.ElementTree] elements are
    a rose tree, a pandas DataFrame is the list of its rows (the frame that
    was never appended to has no column at all), exceptions are an error
    result, and [exclusion_report], which assigns a column of the caller's
    frame, is a function on a store that holds both frames. What the
    interpreter and pandas decide and the script only calls (which strings
    [int] accepts, which integers a frame takes) is a parameter of the
    process parser. *)

From Stdlib Require Import List String Ascii ZArith Bool Arith Lia Permutation.
From Stdlib Require Import DecimalString Sorted.
Import ListNotations.

Local Open Scope string_scope.
Local Open Scope list_scope.
Local Open Scope Z_scope.

Set Warnings "-register-all".

(** ** Exceptions *)

Inductive exn : Type :=
| AttributeError
| IndexError
| KeyError
| OverflowError
| ValueError.

Inductive result (A : Type) : Type :=
| Ok (a : A)
| Raise (e : exn).

Arguments Ok {A} a.
Arguments Raise {A} e.

Definition bind {A B : Type} (m : result A) (k : A -> result B) : result B :=
  match m with
  | Ok a => k a
  | Raise e => Raise e
  end.

Declare Scope result_scope.
Delimit Scope result_scope with result.
Notation "'let*' x ':=' m 'in' k" := (bind m (fun x => k))
  (at level 10, x pattern, m at level 100, k at level 200) : result_scope.
Local Open Scope result_scope.

(** A [for] loop whose body may raise: the loop variable [acc] is the value
    the body rebinds (the frame that is appended to). *)
Fixpoint for_each {A S : Type} (xs : list A) (body : A -> S -> result S)
  (acc : S) : result S :=
  match xs with
  | [] => Ok acc
  | x :: rest => let* acc' := body x acc in for_each rest body acc'
  end.

(** The results of [f] on all items, or the first exception. *)
Fixpoint map_result {A B : Type} (f : A -> result B) (l : list A)
  : result (list B) :=
  match l with
  | [] => Ok []
  | x :: rest =>
      let* y := f x in
      let* ys := map_result f rest in
      Ok (y :: ys)
  end.

(** ** The Python primitives the script uses *)

Module Py.

(** [s.split(sep)] for a separator of one character. Strings are byte
    strings here (the UTF-8 encoding of the Python text). *)
Fixpoint split (sep : ascii) (s : string) : list string :=
  match s with
  | EmptyString => [EmptyString]
  | String c rest =>
      if Ascii.eqb c sep then EmptyString :: split sep rest
      else match split sep rest with
           | [] => [String c EmptyString]
           | field :: fields => String c field :: fields
           end
  end.

(** [l[i]] for a non-negative index. *)
Definition index {A : Type} (l : list A) (i : nat) : result A :=
  match nth_error l i with
  | Some x => Ok x
  | None => Raise IndexError
  end.

(** [x in range(lo, hi)] for an integral [x]. *)
Definition in_range (lo hi x : Z) : bool := (lo <=? x) && (x <? hi).

(** The ASCII white space that [int] skips. *)
Definition is_space (c : ascii) : bool :=
  let n := nat_of_ascii c in
  ((9 <=? n) && (n <=? 13) || (n =? 32))%nat.

Definition is_digit (c : ascii) : bool :=
  let n := nat_of_ascii c in ((48 <=? n) && (n <=? 57))%nat.

Definition digit_val (c : ascii) : Z := Z.of_nat (nat_of_ascii c) - 48.

Fixpoint lstrip (s : string) : string :=
  match s with
  | EmptyString => EmptyString
  | String c rest => if is_space c then lstrip rest else s
  end.

Fixpoint rstrip (s : string) : string :=
  match s with
  | EmptyString => EmptyString
  | String c rest =>
      match rstrip rest with
      | EmptyString => if is_space c then EmptyString else String c EmptyString
      | rest' => String c rest'
      end
  end.

(** The digits of a decimal literal: one digit at least, single underscores
    between digits only. [after_digit] says that the previous character was
    a digit. *)
Fixpoint digits (s : string) (acc : Z) (after_digit : bool) : option Z :=
  match s with
  | EmptyString => if after_digit then Some acc else None
  | String c rest =>
      if is_digit c then digits rest (10 * acc + digit_val c) true
      else if Ascii.eqb c "_" then
             if after_digit then digits rest acc false else None
      else None
  end.

(** An optional sign and the digits. *)
Definition literal (body : string) : option Z :=
  match body with
  | String "-" rest => option_map Z.opp (digits rest 0 false)
  | String "+" rest => digits rest 0 false
  | _ => digits body 0 false
  end.

(** The number of digits of a literal, for the limit on its length. *)
Fixpoint count_digits (s : string) : Z :=
  match s with
  | EmptyString => 0
  | String c rest => (if is_digit c then 1 else 0) + count_digits rest
  end.

(** A continuation byte of UTF-8. *)
Definition continuation (c : ascii) : option N :=
  let n := N_of_ascii c in
  if ((128 <=? n) && (n <? 192))%N then Some (n - 128)%N else None.

(** The characters of a text, from its UTF-8 bytes. *)
Fixpoint code_points (s : string) : option (list N) :=
  match s with
  | EmptyString => Some []
  | String c rest =>
      let n := N_of_ascii c in
      if (n <? 128)%N then option_map (cons n) (code_points rest)
      else if (n <? 192)%N then None
      else if (n <? 224)%N then
        match rest with
        | String c2 rest2 =>
            match continuation c2 with
            | Some x2 =>
                option_map (cons ((n - 192) * 64 + x2)%N) (code_points rest2)
            | None => None
            end
        | _ => None
        end
      else if (n <? 240)%N then
        match rest with
        | String c2 (String c3 rest3) =>
            match continuation c2, continuation c3 with
            | Some x2, Some x3 =>
                option_map (cons (((n - 224) * 64 + x2) * 64 + x3)%N)
                           (code_points rest3)
            | _, _ => None
            end
        | _ => None
        end
      else if (n <? 248)%N then
        match rest with
        | String c2 (String c3 (String c4 rest4)) =>
            match continuation c2, continuation c3, continuation c4 with
            | Some x2, Some x3, Some x4 =>
                option_map
                  (cons ((((n - 240) * 64 + x2) * 64 + x3) * 64 + x4)%N)
                  (code_points rest4)
            | _, _, _ => None
            end
        | _ => None
        end
      else None
  end.

(** The digit zero of every script with decimal digits (Unicode 14); the
    digits one to nine follow it. *)
Definition digit_zeros : list N :=
  [48; 1632; 1776; 1984; 2406; 2534; 2662; 2790; 2918; 3046; 3174; 3302;
   3430; 3558; 3664; 3792; 3872; 4160; 4240; 6112; 6160; 6470; 6608; 6784;
   6800; 6992; 7088; 7232; 7248; 42528; 43216; 43264; 43472; 43504; 43600;
   44016; 65296; 66720; 68912; 69734; 69872; 69942; 70096; 70384; 70736;
   70864; 71248; 71360; 71472; 71904; 72016; 72784; 73040; 73120; 92768;
   92864; 93008; 120782; 120792; 120802; 120812; 120822; 123200; 123632;
   125264; 130032]%N.

(** The white space outside ASCII. *)
Definition unicode_spaces : list N :=
  [133; 160; 5760; 8192; 8193; 8194; 8195; 8196; 8197; 8198; 8199; 8200;
   8201; 8202; 8232; 8233; 8239; 8287; 12288]%N.

Definition decimal (cp : N) : option N :=
  option_map (fun z => (cp - z)%N)
             (find (fun z => ((z <=? cp) && (cp <? z + 10))%N) digit_zeros).

(** [int] reads a text with characters outside ASCII after it has replaced
    every such white space by a space and every such digit by its ASCII
    digit; another character outside ASCII is refused. *)
Definition to_ascii (cp : N) : option ascii :=
  if (cp <? 128)%N then Some (ascii_of_N cp)
  else if existsb (N.eqb cp) unicode_spaces then Some " "%char
  else option_map (fun d => ascii_of_N (48 + d)) (decimal cp).

Fixpoint transform (cps : list N) : option string :=
  match cps with
  | [] => Some EmptyString
  | cp :: rest =>
      match to_ascii cp, transform rest with
      | Some c, Some s => Some (String c s)
      | _, _ => None
      end
  end.

(** [int(s)] for a string, as CPython 3.11 has it: surrounding white space,
    an optional sign and decimal digits with single underscores between
    them, of any script, and no more than 4300 digits. Other interpreters
    differ in the digits they know and in the limit, so the process parser
    below has [int] as a parameter; this function serves to run it on the
    sample payloads. *)
Definition int (s : string) : result Z :=
  match code_points s with
  | None => Raise ValueError
  | Some cps =>
      match transform cps with
      | None => Raise ValueError
      | Some text =>
          let body := rstrip (lstrip text) in
          match literal body with
          | Some z =>
              if 4300 <? count_digits body then Raise ValueError else Ok z
          | None => Raise ValueError
          end
      end
  end.

(** [bool(flag & (0b1 << i))]. *)
Definition bit_set (flag : Z) (i : Z) : bool :=
  negb (Z.land flag (Z.shiftl 1 i) =? 0).

(** Whether [float(n)] is finite: beyond it the conversion raises
    [OverflowError]. It serves, like [int], to run the process parser on
    the sample payloads. *)
Definition float_ok (n : Z) : bool := Z.abs n <? 2 ^ 1024 - 2 ^ 970.

End Py.

(** ** ElementTree *)

Module ET.

(** An element: its tag, its text ([None] when it has none) and its
    children in document order. *)
Inductive Element : Type :=
| Elem (tag : string) (text : option string) (children : list Element).

Definition tag (e : Element) : string :=
  match e with Elem t _ _ => t end.

Definition text (e : Element) : option string :=
  match e with Elem _ t _ => t end.

Definition children (e : Element) : list Element :=
  match e with Elem _ _ cs => cs end.

(** The element and all elements below it, in document order. *)
Fixpoint descendants (e : Element) : list Element :=
  match e with
  | Elem _ _ cs => e :: flat_map descendants cs
  end.

(** [e.iter(t)]. *)
Definition iter (t : string) (e : Element) : list Element :=
  filter (fun x => String.eqb (tag x) t) (descendants e).

End ET.

(** ** Records *)

Record Policy : Type := mkPolicy {
  name : string;
  guid : string
}.

(** A row of the path-exclusion frame, with the keys of [e_item]. *)
Record PathExclusion : Type := mkPathExclusion {
  p_name : string;
  p_guid : string;
  e_class : string;
  e_type : string;
  e_value : string
}.

(** A row of the process-exclusion frame, with the keys of [e_item]. *)
Record ProcessExclusion : Type := mkProcessExclusion {
  Policy_Name : string;
  Policy_GUID : string;
  Polcy_Class : string;
  Exclusion_Version : string;
  Exclusion_Auth_Type : string;
  Exclusion_Hash : string;
  Exclusion_Path : string;
  Exclusion_Flag : Z;
  File_Scan_Child : bool;
  Scan_Files_Written : bool;
  System_Process_Protection : bool;
  System_Process_Protection_Child : bool;
  Malicious_Activity : bool;
  Malicious_Activity_Child : bool;
  Self_Protect : bool;
  Self_Protect_Child : bool
}.

Definition ns_exclusions : string := "{http://www.w3.org/2000/09/xmldsig#}exclusions".
Definition ns_info : string := "{http://www.w3.org/2000/09/xmldsig#}info".
Definition ns_process : string := "{http://www.w3.org/2000/09/xmldsig#}process".

(** [xml_item.text.split("|")]: an element without text has no [split]. *)
Definition split_text (xml_item : ET.Element) : result (list string) :=
  match ET.text xml_item with
  | Some t => Ok (Py.split "|" t)
  | None => Raise AttributeError
  end.

(** ** The parsers *)

(** The body of the innermost loop of [parse_path_exclusions]. *)
Definition path_item (policy : Policy) (xml_item : ET.Element)
  : result PathExclusion :=
  let* exclusion := split_text xml_item in
  let* f1 := Py.index exclusion 1 in
  let* f4 := Py.index exclusion 4 in
  Ok {| p_name := name policy;
        p_guid := guid policy;
        e_class := "path";
        e_type := f1;
        e_value := f4 |}.

Definition parse_path_exclusions (policy : Policy) (xml : ET.Element)
  : result (list PathExclusion) :=
  for_each (ET.iter ns_exclusions xml) (fun xml_exclusion =>
    for_each (ET.iter ns_info xml_exclusion) (fun xml_path =>
      for_each (ET.children xml_path) (fun xml_item e_paths =>
        let* e_item := path_item policy xml_item in
        Ok (e_paths ++ [e_item]))))
    [].

(** ** Tables *)

(** A numeric table with labelled rows and columns: the result of
    [pd.crosstab] and of [pd.pivot_table]. *)
Record Table : Type := mkTable {
  columns : list string;
  rows : list (string * list Z)
}.

(** The process frame: its rows, and the column ['File Scan'] once it has
    been assigned. A frame without rows is the frame without columns that
    [main] builds when no policy has an exclusion. *)
Record ProcessFrame : Type := mkProcessFrame {
  records : list ProcessExclusion;
  File_Scan : option (list bool)
}.

(** The two frames of the caller, which [exclusion_report] receives by
    reference. *)
Record Store : Type := mkStore {
  path : list PathExclusion;
  process : ProcessFrame
}.

Module Pd.

(** Group keys: distinct, in increasing order. *)
Fixpoint insert_sorted (k : string) (l : list string) : list string :=
  match l with
  | [] => [k]
  | x :: rest => if String.leb k x then k :: l else x :: insert_sorted k rest
  end.

Definition sorted_keys (l : list string) : list string :=
  fold_right insert_sorted [] (nodup string_dec l).

(** [len] of the rows that satisfy [p]. *)
Definition count {A : Type} (p : A -> bool) (data : list A) : Z :=
  Z.of_nat (List.length (filter p data)).

(** [np.sum] of a boolean column. *)
Definition np_sum (col : list bool) : Z :=
  fold_right (fun b acc => Z.b2z b + acc) 0 col.

Definition has_label (label : string) (labels : list string) : bool :=
  existsb (String.eqb label) labels.

(** [pd.crosstab(index, columns, margins=True, margins_name=...)]: the
    number of rows for every pair of an index key and a column key, a last
    column with the number of rows of every index key and a last row with
    the number of rows of every column key. A margin name that is already
    a key is refused. *)
Definition crosstab (index cols : list string) (margins_name : string)
  : result Table :=
  let data := combine index cols in
  let rkeys := sorted_keys index in
  let ckeys := sorted_keys cols in
  if has_label margins_name rkeys || has_label margins_name ckeys
  then Raise ValueError
  else
    Ok {| columns := ckeys ++ [margins_name];
          rows :=
            map (fun r =>
                   (r, map (fun c => count (fun d => String.eqb (fst d) r
                                                     && String.eqb (snd d) c) data)
                           ckeys
                       ++ [count (fun d => String.eqb (fst d) r) data]))
                rkeys
            ++ [(margins_name,
                 map (fun c => count (fun d => String.eqb (snd d) c) data) ckeys
                 ++ [count (fun _ => true) data])] |}.

(** [t.rename(columns=mapper)]. *)
Definition rename (mapper : string -> string) (t : Table) : Table :=
  {| columns := map mapper (columns t); rows := rows t |}.

(** [t.index[len(t) - 1]]. *)
Definition last_label (t : Table) : result string :=
  match rev (rows t) with
  | [] => Raise IndexError
  | (label, _) :: _ => Ok label
  end.

(** [t.drop(label)]: without the rows that carry the label. *)
Definition drop (label : string) (t : Table) : Table :=
  {| columns := columns t;
     rows := filter (fun r => negb (String.eqb (fst r) label)) (rows t) |}.

(** The position of the first column with the label. *)
Fixpoint position (label : string) (labels : list string) : option nat :=
  match labels with
  | [] => None
  | l :: rest => if String.eqb l label then Some 0%nat
                 else option_map S (position label rest)
  end.

(** [row[label]] for a row of a table with the given columns. *)
Definition loc (cols : list string) (cells : list Z) (label : string)
  : result Z :=
  match position label cols with
  | None => Raise KeyError
  | Some i => match nth_error cells i with
              | Some v => Ok v
              | None => Raise KeyError
              end
  end.

(** [t[labels]]: the columns with these labels, in this order. *)
Definition select (labels : list string) (t : Table) : result Table :=
  let* new_rows :=
    map_result (fun r =>
                  let* cells := map_result (loc (columns t) (snd r)) labels in
                  Ok (fst r, cells))
               (rows t) in
  Ok {| columns := labels; rows := new_rows |}.

(** [t.drop(columns=labels)]. *)
Definition drop_columns (labels : list string) (t : Table) : result Table :=
  let* _ := for_each labels (fun l (_ : unit) =>
              if has_label l (columns t) then Ok tt else Raise KeyError) tt in
  select (filter (fun c => negb (has_label c labels)) (columns t)) t.

End Pd.

(** ** The report *)

Definition margins_name : string := "Total Exclusions".

Definition path_column_names (c : string) : string :=
  if String.eqb c "1" then "Threat"
  else if String.eqb c "2" then "Path"
  else if String.eqb c "3" then "File Extension"
  else if String.eqb c "4" then "File Name"
  else if String.eqb c "5" then "Process"
  else if String.eqb c "6" then "Wildcard"
  else c.

(** The path summary: [pd.crosstab], the renaming of the type codes and the
    removal of the margin row. A frame without rows has no column
    [p_name]. *)
Definition path_summary (path : list PathExclusion) : result Table :=
  match path with
  | [] => Raise AttributeError
  | _ =>
      let* path_exc := Pd.crosstab (map p_name path) (map e_type path) margins_name in
      let path_exc := Pd.rename path_column_names path_exc in
      let* last := Pd.last_label path_exc in
      Ok (Pd.drop last path_exc)
  end.

(** [process['File Scan'] = process['Exclusion Flag'].apply(lambda x: x in range(0, 3))].
    A frame without rows has no column ['Exclusion Flag']. *)
Definition assign_File_Scan (process : ProcessFrame) : result ProcessFrame :=
  match records process with
  | [] => Raise KeyError
  | rs => Ok {| records := rs;
                File_Scan := Some (map (fun r => Py.in_range 0 3 (Exclusion_Flag r)) rs) |}
  end.

(** [pd.pivot_table(process, values=[...], index='Policy Name', aggfunc={...})]:
    one row for every policy name, the columns in alphabetical order. *)
Definition pivot_table (process : ProcessFrame) : result Table :=
  match File_Scan process with
  | None => Raise KeyError
  | Some file_scan =>
      let data := combine (records process) file_scan in
      let group k := filter (fun d => String.eqb (Policy_Name (fst d)) k) data in
      let sum_of (col : ProcessExclusion -> bool) k :=
        Pd.np_sum (map (fun d => col (fst d)) (group k)) in
      Ok {| columns := ["File Scan"; "File Scan Child"; "Malicious Activity";
                        "Malicious Activity Child"; "Policy GUID";
                        "System Process Protection";
                        "System Process Protection Child"];
            rows :=
              map (fun k =>
                     (k, [Pd.np_sum (map snd (group k));
                          sum_of File_Scan_Child k;
                          sum_of Malicious_Activity k;
                          sum_of Malicious_Activity_Child k;
                          Z.of_nat (List.length (group k));
                          sum_of System_Process_Protection k;
                          sum_of System_Process_Protection_Child k]))
                  (Pd.sorted_keys (map Policy_Name (records process))) |}
  end.

Definition pivot_column_names (c : string) : string :=
  if String.eqb c "Policy GUID" then "Total Exclusions" else c.

Definition display_column_names (c : string) : string :=
  if String.eqb c "File Scan" then "FS"
  else if String.eqb c "System Process Protection" then "SPP"
  else if String.eqb c "Malicious Activity" then "MA"
  else c.

(** The policies of a pivot whose total satisfies [test], with the total. *)
Definition advisory (test : Z -> bool) (pvt : Table)
  : result (list (string * Z)) :=
  for_each (rows pvt) (fun r acc =>
    let* total := Pd.loc (columns pvt) (snd r) "Total Exclusions" in
    if test total then Ok (acc ++ [(fst r, total)]) else Ok acc) [].

(** What the report writes and prints. *)
Record Report : Type := mkReport {
  path_exc : Table;          (* path_exclusions.csv and the first table *)
  pvt_process : Table;       (* process_exclusions.csv *)
  pvt_display : Table;       (* the second table *)
  caution_list : list (string * Z);
  warning_list : list (string * Z)
}.

(** [exclusion_report(path, process)] on the caller's frames: the store
    after the call and what was reported, or the exception raised. *)
Definition exclusion_report (st : Store) : Store * result Report :=
  match path_summary (path st) with
  | Raise e => (st, Raise e)
  | Ok path_exc =>
      match assign_File_Scan (process st) with
      | Raise e => (st, Raise e)
      | Ok process' =>
          let st' := {| path := path st; process := process' |} in
          (st',
           let* pvt := pivot_table process' in
           let pvt := Pd.rename pivot_column_names pvt in
           let* pvt := Pd.select ["File Scan"; "File Scan Child";
                                  "System Process Protection";
                                  "System Process Protection Child";
                                  "Malicious Activity";
                                  "Malicious Activity Child";
                                  "Total Exclusions"] pvt in
           let* caution := advisory (Py.in_range 90 101) pvt in
           let* warning := advisory (fun total => 100 <? total) pvt in
           let* shown := Pd.drop_columns ["File Scan Child";
                                          "System Process Protection Child";
                                          "Malicious Activity Child"] pvt in
           Ok {| path_exc := path_exc;
                 pvt_process := pvt;
                 pvt_display := Pd.rename display_column_names shown;
                 caution_list := caution;
                 warning_list := warning |})
      end
  end.

(** ** The entries a parser visits *)

(** The items that the three nested loops of [parse_path_exclusions] reach,
    in the order in which they reach them. *)
Definition path_entries (xml : ET.Element) : list ET.Element :=
  flat_map (fun xml_exclusion =>
              flat_map ET.children (ET.iter ns_info xml_exclusion))
           (ET.iter ns_exclusions xml).

(** The same for [parse_process_exclusions]. *)
Definition process_entries (xml : ET.Element) : list ET.Element :=
  flat_map (fun xml_exclusion =>
              flat_map ET.children (ET.iter ns_process xml_exclusion))
           (ET.iter ns_exclusions xml).

(** ** Sample inputs *)

Definition sample_policy : Policy := mkPolicy "P" "g".

Definition ns_item : string := "{http://www.w3.org/2000/09/xmldsig#}item".

(** A policy document with one process entry. *)
Definition one_process_policy (payload : string) : ET.Element :=
  ET.Elem "policy" None
    [ET.Elem ns_exclusions None
       [ET.Elem ns_process None [ET.Elem ns_item (Some payload) []]]].

(** The record of the payload ["1|0|abcd|C:\bar\baz.exe|<flag>"]. *)
Definition sample_record (flag : Z) (b0 b1 b2 b3 b4 b5 b6 b7 : bool)
  : ProcessExclusion :=
  mkProcessExclusion "P" "g" "process" "1" "0" "abcd" "C:\bar\baz.exe" flag
    b0 b1 b2 b3 b4 b5 b6 b7.

Definition flag1_record : ProcessExclusion :=
  sample_record 1 true false false false false false false false.

Definition flag7_record : ProcessExclusion :=
  sample_record 7 true true true false false false false false.

(** A policy document with two path entries. *)
Definition two_path_policy (payload1 payload2 : string) : ET.Element :=
  ET.Elem "policy" None
    [ET.Elem ns_exclusions None
       [ET.Elem ns_info None
          [ET.Elem ns_item (Some payload1) [];
           ET.Elem ns_item (Some payload2) []]]].

(** A policy document with two process entries. *)
Definition two_process_policy (payload1 payload2 : string) : ET.Element :=
  ET.Elem "policy" None
    [ET.Elem ns_exclusions None
       [ET.Elem ns_process None
          [ET.Elem ns_item (Some payload1) [];
           ET.Elem ns_item (Some payload2) []]]].

(** A policy document without an [exclusions] element, and one whose
    [exclusions] element has an [info] and a [process] element without
    entries. *)
Definition policy_without_exclusions : ET.Element :=
  ET.Elem "policy" None [ET.Elem "{http://www.w3.org/2000/09/xmldsig#}Object" None []].

Definition policy_with_empty_exclusions : ET.Element :=
  ET.Elem "policy" None
    [ET.Elem ns_exclusions None
       [ET.Elem ns_info None []; ET.Elem ns_process None []]].

(** ** The summaries as counts over the records *)

(** Rows that are given by a function of their key. *)
Definition keyed_rows (keys : list string) (cells : string -> list Z)
  : list (string * list Z) :=
  map (fun k => (k, cells k)) keys.

(** The number of process records of a policy that satisfy [col]. *)
Definition process_count (rs : list ProcessExclusion) (policy : string)
  (col : ProcessExclusion -> bool) : Z :=
  Pd.count (fun r => String.eqb (Policy_Name r) policy && col r) rs.

Definition summary_columns : list string :=
  ["File Scan"; "File Scan Child"; "System Process Protection";
   "System Process Protection Child"; "Malicious Activity";
   "Malicious Activity Child"; "Total Exclusions"].

Definition summary_row (rs : list ProcessExclusion) (policy : string)
  : list Z :=
  [process_count rs policy (fun r => Py.in_range 0 3 (Exclusion_Flag r));
   process_count rs policy File_Scan_Child;
   process_count rs policy System_Process_Protection;
   process_count rs policy System_Process_Protection_Child;
   process_count rs policy Malicious_Activity;
   process_count rs policy Malicious_Activity_Child;
   process_count rs policy (fun _ => true)].

(** The process summary, by grouping and counting. *)
Definition process_summary (rs : list ProcessExclusion) : Table :=
  {| columns := summary_columns;
     rows := keyed_rows (Pd.sorted_keys (map Policy_Name rs)) (summary_row rs) |}.

Definition display_row (rs : list ProcessExclusion) (policy : string)
  : list Z :=
  [process_count rs policy (fun r => Py.in_range 0 3 (Exclusion_Flag r));
   process_count rs policy System_Process_Protection;
   process_count rs policy Malicious_Activity;
   process_count rs policy (fun _ => true)].

Definition process_display (rs : list ProcessExclusion) : Table :=
  {| columns := ["FS"; "SPP"; "MA"; "Total Exclusions"];
     rows := keyed_rows (Pd.sorted_keys (map Policy_Name rs)) (display_row rs) |}.

(** The policies whose number of process records satisfies [test]. *)
Definition flagged (test : Z -> bool) (rs : list ProcessExclusion)
  : list (string * Z) :=
  map (fun k => (k, process_count rs k (fun _ => true)))
      (filter (fun k => test (process_count rs k (fun _ => true)))
              (Pd.sorted_keys (map Policy_Name rs))).

(** The process frame after the report has assigned ['File Scan']. *)
Definition reported_frame (rs : list ProcessExclusion) : ProcessFrame :=
  {| records := rs;
     File_Scan := Some (map (fun r => Py.in_range 0 3 (Exclusion_Flag r)) rs) |}.

(** The number of path records of a policy, and of a policy and a type. *)
Definition path_count (path : list PathExclusion) (policy : string) : Z :=
  Pd.count (fun e => String.eqb (p_name e) policy) path.

Definition path_type_count (path : list PathExclusion) (policy type : string)
  : Z :=
  Pd.count (fun e => String.eqb (p_name e) policy && String.eqb (e_type e) type)
           path.

(** The sum of the cells of a row. *)
Definition row_sum (cells : list Z) : Z := fold_right Z.add 0 cells.

Definition sample_path (policy type : string) : PathExclusion :=
  mkPathExclusion policy "g" "path" type "C:\foo".

Definition sample_process (policy : string) (flag : Z) : ProcessExclusion :=
  mkProcessExclusion policy "g" "process" "1" "0" "abcd" "C:\bar\baz.exe" flag
    (Py.bit_set flag 0) (Py.bit_set flag 1) (Py.bit_set flag 2)
    (Py.bit_set flag 3) (Py.bit_set flag 4) (Py.bit_set flag 5)
    (Py.bit_set flag 6) (Py.bit_set flag 7).

(** Policy A with 95, B with 105 and C with 50 process exclusions. *)
Definition sample_store : Store :=
  {| path := [sample_path "A" "2"; sample_path "B" "1"; sample_path "A" "2";
              sample_path "A" "9"];
     process :=
       {| records := repeat (sample_process "A" 2) 95
                     ++ repeat (sample_process "B" 7) 105
                     ++ repeat (sample_process "C" 0) 50;
          File_Scan := None |} |}.

(** What the report gives for [sample_store]. *)
Definition sample_report : Report :=
  match snd (exclusion_report sample_store) with
  | Ok rep => rep
  | Raise _ => mkReport (mkTable [] []) (mkTable [] []) (mkTable [] []) [] []
  end.

(** ** The rest of the script *)

Module HttpResp.

Inductive level : Type := DEBUG | ERROR.

(** [str(n)] of an integer, as [format] renders it. *)
Definition str (n : Z) : string := NilZero.string_of_int (Z.to_int n).

(** [HttpResp.status(response, query)] for a response with the given
    [status_code] and [reason]: the record that goes to the log. *)
Definition status (status_code : Z) (reason query : string)
  : level * string :=
  let mthd := "HTTPRESPONSE.STATUS:" in
  let log_msg :=
    (mthd ++ " Found HTTP " ++ str status_code ++ " " ++ reason
          ++ " for " ++ query)%string in
  if negb (status_code / 100 =? 2) then (ERROR, log_msg) else (DEBUG, log_msg).

End HttpResp.

(** ** Notions used in the statements *)

(** The number of occurrences of a character. *)
Fixpoint count_char (c : ascii) (s : string) : nat :=
  match s with
  | EmptyString => 0%nat
  | String a rest => ((if Ascii.eqb a c then 1 else 0) + count_char c rest)%nat
  end.

(** [sep.join(fields)]. *)
Fixpoint join (sep : ascii) (fields : list string) : string :=
  match fields with
  | [] => EmptyString
  | [f] => f
  | f :: rest => (f ++ String sep (join sep rest))%string
  end.

(** The eight decoded booleans of a record, bit 0 first. *)
Definition decoded_bits (r : ProcessExclusion) : list bool :=
  [File_Scan_Child r; Scan_Files_Written r; System_Process_Protection r;
   System_Process_Protection_Child r; Malicious_Activity r;
   Malicious_Activity_Child r; Self_Protect r; Self_Protect_Child r].

(** The number whose binary digits are the given booleans, lowest first. *)
Fixpoint bits_value (bits : list bool) : Z :=
  match bits with
  | [] => 0
  | b :: rest => Z.b2z b + 2 * bits_value rest
  end.

(** A record whose booleans are the bit tests of its flag, as the parser
    builds it. *)
Definition decoded (r : ProcessExclusion) : Prop :=
  decoded_bits r = map (Py.bit_set (Exclusion_Flag r)) [0; 1; 2; 3; 4; 5; 6; 7].

(** A well-formed path payload. *)
Definition path_payload_ok (item : ET.Element) : Prop :=
  exists t, ET.text item = Some t /\ (4 <= count_char "|" t)%nat.

(** The order of the group keys. *)
Definition name_le (a b : string) : Prop := String.leb a b = true.

(** A sample run: two policies, the second one fetched first. *)
Definition sample_run : list (Policy * ET.Element) :=
  [(mkPolicy "B" "guid-b",
    ET.Elem "policy" None
      [ET.Elem ns_exclusions None
         [ET.Elem ns_info None [ET.Elem ns_item (Some "1|2|0|0|C:\temp") []];
          ET.Elem ns_process None
            [ET.Elem ns_item (Some "3|0||C:\bin\a.exe|48") []]]]);
   (mkPolicy "A" "guid-a",
    ET.Elem "policy" None
      [ET.Elem ns_exclusions None
         [ET.Elem ns_info None
            [ET.Elem ns_item (Some "1|3|0|0|.log") [];
             ET.Elem ns_item (Some "1|2|0|0|C:\data") []];
          ET.Elem ns_process None
            [ET.Elem ns_item (Some "3|0||C:\bin\b.exe|1") [];
             ET.Elem ns_item (Some "3|0||C:\bin\c.exe|2") []]]])].

(** A run in which the second policy has an entry of three fields. *)
Definition sample_bad_run : list (Policy * ET.Element) :=
  [(mkPolicy "A" "guid-a", two_path_policy "1|2|x|y|C:\foo" "1|2|x|y|C:\bar");
   (mkPolicy "B" "guid-b", two_path_policy "1|2|x|y|C:\foo" "1|2|x")].

(** * The process parser and the run *)

Section Runtime.

(** [int] on a string, as the interpreter that runs the script has it. *)
Variable py_int : string -> result Z.

(** The flags that a row appended to a frame can hold: pandas raises
    [OverflowError] for an integer that it cannot convert to a float. *)
Variable py_storable : Z -> bool.

(** [int] raises nothing but [ValueError] on a string. *)
Hypothesis py_int_raises : forall s e, py_int s = Raise e -> e = ValueError.

Set Default Proof Using "Type".

(** The body of the innermost loop of [parse_process_exclusions]. *)
Definition process_item (policy : Policy) (xml_item : ET.Element)
  : result ProcessExclusion :=
  let* exclusion := split_text xml_item in
  let* f4 := Py.index exclusion 4 in
  let* e_flag := py_int f4 in
  let* f0 := Py.index exclusion 0 in
  let* f1 := Py.index exclusion 1 in
  let* f2 := Py.index exclusion 2 in
  let* f3 := Py.index exclusion 3 in
  Ok {| Policy_Name := name policy;
        Policy_GUID := guid policy;
        Polcy_Class := "process";
        Exclusion_Version := f0;
        Exclusion_Auth_Type := f1;
        Exclusion_Hash := f2;
        Exclusion_Path := f3;
        Exclusion_Flag := e_flag;
        File_Scan_Child := Py.bit_set e_flag 0;
        Scan_Files_Written := Py.bit_set e_flag 1;
        System_Process_Protection := Py.bit_set e_flag 2;
        System_Process_Protection_Child := Py.bit_set e_flag 3;
        Malicious_Activity := Py.bit_set e_flag 4;
        Malicious_Activity_Child := Py.bit_set e_flag 5;
        Self_Protect := Py.bit_set e_flag 6;
        Self_Protect_Child := Py.bit_set e_flag 7 |}.

(** [e_processes.append(e_item, ignore_index=True)]: the frame takes the
    row unless it cannot take its flag. *)
Definition append_process (e_processes : list ProcessExclusion)
  (e_item : ProcessExclusion) : result (list ProcessExclusion) :=
  if py_storable (Exclusion_Flag e_item)
  then Ok (e_processes ++ [e_item])
  else Raise OverflowError.

Definition parse_process_exclusions (policy : Policy) (xml : ET.Element)
  : result (list ProcessExclusion) :=
  for_each (ET.iter ns_exclusions xml) (fun xml_exclusion =>
    for_each (ET.iter ns_process xml_exclusion) (fun xml_process =>
      for_each (ET.children xml_process) (fun xml_item e_processes =>
        let* e_item := process_item policy xml_item in
        append_process e_processes e_item)))
    [].

(** What the innermost loop does with one entry: the record, once the
    frame has taken it. *)
Definition process_entry (policy : Policy) (xml_item : ET.Element)
  : result ProcessExclusion :=
  let* e_item := process_item policy xml_item in
  if py_storable (Exclusion_Flag e_item) then Ok e_item else Raise OverflowError.

(** The loop of [main] over the fetched policies, in the order in which
    their downloads complete: both parsers run on every policy and their
    frames are appended to the two frames of the run. An exception of a
    parser comes out of [result()] and ends the loop. *)
Definition collect (completed : list (Policy * ET.Element))
  : result (list PathExclusion * list ProcessExclusion) :=
  for_each completed (fun fetched dfs =>
    let policy := fst fetched in
    let policy_xml := snd fetched in
    let* p_paths := parse_path_exclusions policy policy_xml in
    let df_paths := fst dfs ++ p_paths in
    let* p_processes := parse_process_exclusions policy policy_xml in
    Ok (df_paths, snd dfs ++ p_processes))
    ([], []).

(** [main()] once the policies are fetched: the collection and the report
    on the collected frames. *)
Definition main (completed : list (Policy * ET.Element)) : result Report :=
  let* dfs := collect completed in
  snd (exclusion_report
         {| path := fst dfs;
            process := {| records := snd dfs; File_Scan := None |} |}).

(** Both parsers on one fetched policy. *)
Definition parse_policy (fetched : Policy * ET.Element)
  : result (list PathExclusion * list ProcessExclusion) :=
  let* p_paths := parse_path_exclusions (fst fetched) (snd fetched) in
  let* p_processes := parse_process_exclusions (fst fetched) (snd fetched) in
  Ok (p_paths, p_processes).

(** A well-formed process payload. *)
Definition process_payload_ok (item : ET.Element) : Prop :=
  exists t f4 flag,
    ET.text item = Some t
    /\ nth_error (Py.split "|" t) 4 = Some f4
    /\ py_int f4 = Ok flag
    /\ py_storable flag = true.

(** The frames that the loop of [main] collects from [sample_run]. *)
Definition sample_frames : list PathExclusion * list ProcessExclusion :=
  match collect sample_run with
  | Ok dfs => dfs
  | Raise _ => ([], [])
  end.

(** * Properties *)

Lemma for_each_app {A S : Type} (xs ys : list A) (body : A -> S -> result S)
  (acc : S) :
  for_each (xs ++ ys) body acc
  = let* acc' := for_each xs body acc in for_each ys body acc'.
Proof.
  revert acc; induction xs as [|x xs IH]; intros acc; simpl; [reflexivity|].
  destruct (body x acc); simpl; auto.
Qed.

Section Loops.

Context {A B S : Type}.

Lemma for_each_nested (g : A -> list B) (body : B -> S -> result S)
  (xs : list A) (acc : S) :
  for_each xs (fun x => for_each (g x) body) acc
  = for_each (flat_map g xs) body acc.
Proof.
  revert acc; induction xs as [|x xs IH]; intros acc; simpl; [reflexivity|].
  rewrite for_each_app.
  destruct (for_each (g x) body acc); simpl; auto.
Qed.

Lemma for_each_ext (body body' : A -> S -> result S) (xs : list A) (acc : S) :
  (forall x s, body x s = body' x s) ->
  for_each xs body acc = for_each xs body' acc.
Proof.
  intros E; revert acc; induction xs as [|x xs IH]; intros acc; simpl; auto.
  rewrite E. destruct (body' x acc); simpl; auto.
Qed.

End Loops.

Lemma for_each_collect {A B : Type} (f : A -> result B) (xs : list A)
  (acc : list B) :
  for_each xs (fun x acc => let* y := f x in Ok (acc ++ [y])) acc
  = let* ys := map_result f xs in Ok (acc ++ ys).
Proof.
  revert acc; induction xs as [|x xs IH]; intros acc; simpl.
  - now rewrite app_nil_r.
  - destruct (f x) as [y|e]; simpl; [|reflexivity].
    rewrite IH. destruct (map_result f xs) as [ys|e]; simpl; [|reflexivity].
    now rewrite <- app_assoc.
Qed.

Lemma map_result_Ok {A B : Type} (f : A -> result B) (l : list A) (ys : list B) :
  map_result f l = Ok ys <-> Forall2 (fun x y => f x = Ok y) l ys.
Proof.
  revert ys; induction l as [|x l IH]; intros ys; simpl.
  - split; intros H; [injection H as <-; constructor | inversion H; reflexivity].
  - split.
    + destruct (f x) as [y|e] eqn:Fx; simpl; [|discriminate].
      destruct (map_result f l) as [zs|e] eqn:Fl; simpl; [|discriminate].
      intros H; injection H as <-. constructor; [assumption|]. now apply IH.
    + intros H; inversion H as [|? y ? zs Hy Hzs]; subst.
      rewrite Hy; simpl. apply IH in Hzs. now rewrite Hzs.
Qed.

Lemma map_result_Raise {A B : Type} (f : A -> result B) (l : list A) (x : A)
  (e : exn) :
  In x l -> f x = Raise e -> exists e', map_result f l = Raise e'.
Proof.
  induction l as [|a l IH]; simpl; [tauto|].
  intros [->|Hin] Hx.
  - rewrite Hx; simpl. now exists e.
  - destruct (f a); simpl; [|eauto].
    destruct (IH Hin Hx) as [e' ->]; simpl; eauto.
Qed.

Lemma map_result_total {A B : Type} (f : A -> result B) (l : list A) :
  (forall x, In x l -> exists y, f x = Ok y) ->
  exists ys, map_result f l = Ok ys.
Proof.
  induction l as [|a l IH]; simpl; intros H; [now exists []|].
  destruct (H a (or_introl eq_refl)) as [y ->]; simpl.
  destruct IH as [ys ->]; [intros; apply H; now right|].
  simpl; eauto.
Qed.

(** The three nested loops of the path parser visit [path_entries] and
    stop at the first item that raises. *)
Lemma parse_path_exclusions_entries (policy : Policy) (xml : ET.Element) :
  parse_path_exclusions policy xml
  = map_result (path_item policy) (path_entries xml).
Proof.
  unfold parse_path_exclusions, path_entries.
  transitivity
    (for_each (ET.iter ns_exclusions xml)
       (fun xml_exclusion =>
          for_each (flat_map ET.children (ET.iter ns_info xml_exclusion))
            (fun xml_item e_paths =>
               let* e_item := path_item policy xml_item in
               Ok (e_paths ++ [e_item]))) []).
  { apply for_each_ext; intros; apply for_each_nested. }
  rewrite for_each_nested, for_each_collect.
  now destruct (map_result _ _).
Qed.

Lemma process_entry_Ok (policy : Policy) (item : ET.Element)
  (r : ProcessExclusion) :
  process_entry policy item = Ok r
  <-> process_item policy item = Ok r /\ py_storable (Exclusion_Flag r) = true.
Proof.
  unfold process_entry.
  destruct (process_item policy item) as [r'|e]; simpl.
  - destruct (py_storable (Exclusion_Flag r')) eqn:E; split.
    + intros H; injection H as <-. auto.
    + intros [H _]. exact H.
    + discriminate.
    + intros [H H']. injection H as <-. congruence.
  - split; [discriminate | intros [H _]; discriminate].
Qed.

(** The three nested loops of the process parser visit [process_entries]
    and stop at the first entry that raises or that the frame refuses. *)
Lemma parse_process_exclusions_entries (policy : Policy) (xml : ET.Element) :
  parse_process_exclusions policy xml
  = map_result (process_entry policy) (process_entries xml).
Proof.
  unfold parse_process_exclusions, process_entries.
  transitivity
    (for_each (ET.iter ns_exclusions xml)
       (fun xml_exclusion =>
          for_each (flat_map ET.children (ET.iter ns_process xml_exclusion))
            (fun xml_item e_processes =>
               let* e_item := process_item policy xml_item in
               append_process e_processes e_item)) []).
  { apply for_each_ext; intros; apply for_each_nested. }
  rewrite for_each_nested.
  rewrite (for_each_ext _ (fun xml_item e_processes =>
                             let* e_item := process_entry policy xml_item in
                             Ok (e_processes ++ [e_item]))).
  2:{ intros x acc. unfold process_entry, append_process.
      destruct (process_item policy x) as [r|e]; simpl; [|reflexivity].
      now destruct (py_storable (Exclusion_Flag r)). }
  rewrite for_each_collect.
  now destruct (map_result _ _).
Qed.

(** ** Bit tests *)

Lemma bit_set_testbit (flag i : Z) :
  0 <= i -> Py.bit_set flag i = Z.testbit flag i.
Proof.
  intros Hi. unfold Py.bit_set. rewrite Z.shiftl_1_l.
  destruct (Z.testbit flag i) eqn:Hb.
  - apply negb_true_iff, Z.eqb_neq. intros H0.
    assert (Hl : Z.testbit (Z.land flag (2 ^ i)) i = true).
    { rewrite Z.land_spec, Hb, Z.pow2_bits_true by assumption. reflexivity. }
    rewrite H0, Z.bits_0 in Hl. discriminate.
  - apply negb_false_iff, Z.eqb_eq, Z.bits_inj'. intros n Hn.
    rewrite Z.land_spec, Z.bits_0, Z.pow2_bits_eqb by assumption.
    destruct (Z.eqb_spec i n) as [->|]; [now rewrite Hb | apply andb_false_r].
Qed.

Lemma shift_mask_testbit (flag i : Z) :
  0 <= i -> (Z.land (Z.shiftr flag i) 1 =? 1) = Z.testbit flag i.
Proof.
  intros Hi.
  change 1 with (Z.ones 1) at 1. rewrite Z.land_ones by lia.
  change (2 ^ 1) with 2. rewrite <- Z.bit0_mod, Z.shiftr_spec by lia.
  simpl. now destruct (Z.testbit flag i).
Qed.

Lemma bit_set_shift_mask (flag i : Z) :
  0 <= i -> Py.bit_set flag i = (Z.land (Z.shiftr flag i) 1 =? 1).
Proof.
  intros Hi. now rewrite bit_set_testbit, shift_mask_testbit.
Qed.

(** ** The records of a successful parse *)

Lemma five_fields {A : Type} (l : list A) :
  (5 <= List.length l)%nat ->
  exists f0 f1 f2 f3 f4 rest, l = f0 :: f1 :: f2 :: f3 :: f4 :: rest.
Proof.
  intros H.
  do 5 (destruct l as [|? l]; [simpl in H; lia|]).
  repeat eexists.
Qed.

Lemma index_Ok {A : Type} (l : list A) (i : nat) (x : A) :
  Py.index l i = Ok x <-> nth_error l i = Some x.
Proof.
  unfold Py.index. destruct (nth_error l i); split; congruence.
Qed.

Lemma index_short {A : Type} (l : list A) (i : nat) :
  (List.length l <= i)%nat -> Py.index l i = Raise IndexError.
Proof.
  intros H. unfold Py.index. now apply nth_error_None in H as ->.
Qed.

Lemma path_item_Ok (policy : Policy) (item : ET.Element) (r : PathExclusion) :
  path_item policy item = Ok r ->
  exists t f1 f4,
    ET.text item = Some t
    /\ nth_error (Py.split "|" t) 1 = Some f1
    /\ nth_error (Py.split "|" t) 4 = Some f4
    /\ r = mkPathExclusion (name policy) (guid policy) "path" f1 f4.
Proof.
  unfold path_item, split_text.
  destruct (ET.text item) as [t|]; simpl; [|discriminate].
  destruct (Py.index (Py.split "|" t) 1) as [f1|] eqn:E1; simpl; [|discriminate].
  destruct (Py.index (Py.split "|" t) 4) as [f4|] eqn:E4; simpl; [|discriminate].
  intros H; injection H as <-.
  apply index_Ok in E1, E4. now exists t, f1, f4.
Qed.

Lemma process_item_Ok (policy : Policy) (item : ET.Element)
  (r : ProcessExclusion) :
  process_item policy item = Ok r ->
  exists t f0 f1 f2 f3 f4 e_flag,
    ET.text item = Some t
    /\ nth_error (Py.split "|" t) 0 = Some f0
    /\ nth_error (Py.split "|" t) 1 = Some f1
    /\ nth_error (Py.split "|" t) 2 = Some f2
    /\ nth_error (Py.split "|" t) 3 = Some f3
    /\ nth_error (Py.split "|" t) 4 = Some f4
    /\ py_int f4 = Ok e_flag
    /\ r = mkProcessExclusion (name policy) (guid policy) "process"
             f0 f1 f2 f3 e_flag
             (Py.bit_set e_flag 0) (Py.bit_set e_flag 1)
             (Py.bit_set e_flag 2) (Py.bit_set e_flag 3)
             (Py.bit_set e_flag 4) (Py.bit_set e_flag 5)
             (Py.bit_set e_flag 6) (Py.bit_set e_flag 7).
Proof.
  unfold process_item, split_text.
  destruct (ET.text item) as [t|]; simpl; [|discriminate].
  destruct (Py.index (Py.split "|" t) 4) as [f4|] eqn:E4; simpl; [|discriminate].
  destruct (py_int f4) as [e_flag|] eqn:Ef; simpl; [|discriminate].
  destruct (Py.index (Py.split "|" t) 0) as [f0|] eqn:E0; simpl; [|discriminate].
  destruct (Py.index (Py.split "|" t) 1) as [f1|] eqn:E1; simpl; [|discriminate].
  destruct (Py.index (Py.split "|" t) 2) as [f2|] eqn:E2; simpl; [|discriminate].
  destruct (Py.index (Py.split "|" t) 3) as [f3|] eqn:E3; simpl; [|discriminate].
  intros H; injection H as <-.
  apply index_Ok in E0, E1, E2, E3, E4.
  now exists t, f0, f1, f2, f3, f4, e_flag.
Qed.

Lemma Forall2_In_r {A B : Type} (R : A -> B -> Prop) (l : list A) (l' : list B)
  (y : B) :
  Forall2 R l l' -> In y l' -> exists x, In x l /\ R x y.
Proof.
  induction 1 as [|a b l l' Hab _ IH]; simpl; [tauto|].
  intros [<-|Hin]; [eauto|].
  destruct (IH Hin) as [x [Hx Hr]]; eauto.
Qed.

Lemma parsed_process_record (policy : Policy) (xml : ET.Element)
  (rs : list ProcessExclusion) (r : ProcessExclusion) :
  parse_process_exclusions policy xml = Ok rs -> In r rs ->
  exists item, In item (process_entries xml) /\ process_item policy item = Ok r.
Proof.
  rewrite parse_process_exclusions_entries, map_result_Ok.
  intros H Hin. destruct (Forall2_In_r _ _ _ _ H Hin) as [item [Hitem Hr]].
  exists item. split; [assumption|]. now apply process_entry_Ok in Hr.
Qed.

(** ** C1: the decoded flag bits *)

(** C1, amended: for every record that [parse_process_exclusions] returns,
    the eight decoded booleans are the tests [(flag >> i) & 1 == 1] of the
    bits 0 to 7 under the names File Scan Child, Scan Files Written, System
    Process Protection, System Process Protection Child, Malicious Activity,
    Malicious Activity Child, Self Protect and Self Protect Child; with flag
    7 the first three are true and the other five false. *)
Theorem process_flag_bits (policy : Policy) (xml : ET.Element)
  (rs : list ProcessExclusion) (r : ProcessExclusion) :
  parse_process_exclusions policy xml = Ok rs -> In r rs ->
  let bit i := Z.land (Z.shiftr (Exclusion_Flag r) i) 1 =? 1 in
  (File_Scan_Child r = bit 0
   /\ Scan_Files_Written r = bit 1
   /\ System_Process_Protection r = bit 2
   /\ System_Process_Protection_Child r = bit 3
   /\ Malicious_Activity r = bit 4
   /\ Malicious_Activity_Child r = bit 5
   /\ Self_Protect r = bit 6
   /\ Self_Protect_Child r = bit 7)
  /\ (Exclusion_Flag r = 7 ->
      File_Scan_Child r = true
      /\ Scan_Files_Written r = true
      /\ System_Process_Protection r = true
      /\ System_Process_Protection_Child r = false
      /\ Malicious_Activity r = false
      /\ Malicious_Activity_Child r = false
      /\ Self_Protect r = false
      /\ Self_Protect_Child r = false).
Proof.
  intros Hparse Hin bit.
  destruct (parsed_process_record _ _ _ _ Hparse Hin) as [item [_ Hitem]].
  apply process_item_Ok in Hitem
    as (t & f0 & f1 & f2 & f3 & f4 & e_flag & _ & _ & _ & _ & _ & _ & _ & ->).
  subst bit; simpl. split.
  - repeat split; apply bit_set_shift_mask; lia.
  - intros ->. repeat split; reflexivity.
Qed.

(** ** C2: a malformed entry *)

Lemma path_item_short (policy : Policy) (item : ET.Element) (t : string) :
  ET.text item = Some t -> (List.length (Py.split "|" t) < 5)%nat ->
  path_item policy item = Raise IndexError.
Proof.
  intros Ht Hlen. unfold path_item, split_text. rewrite Ht; simpl.
  rewrite (index_short _ 4) by lia.
  unfold Py.index. now destruct (nth_error (Py.split "|" t) 1).
Qed.

(** ** C6: the fields of a path record *)

(** C6: when every path entry of a policy has a payload of at least 5
    fields, [parse_path_exclusions] returns one record for every entry, in
    order, with class ["path"], the type code field 1 and the value field 4
    of the split payload (and the name and identifier of the policy); the
    payload ["1|2|x|y|C:\foo"] gives type code 2 and value [C:\foo]. *)
Theorem path_record_fields (policy : Policy) (xml : ET.Element) :
  ((forall item, In item (path_entries xml) ->
      exists t, ET.text item = Some t
                /\ (5 <= List.length (Py.split "|" t))%nat) ->
   exists rs,
     parse_path_exclusions policy xml = Ok rs
     /\ Forall2 (fun item r =>
                   exists t, ET.text item = Some t
                     /\ e_class r = "path"
                     /\ nth_error (Py.split "|" t) 1 = Some (e_type r)
                     /\ nth_error (Py.split "|" t) 4 = Some (e_value r)
                     /\ p_name r = name policy
                     /\ p_guid r = guid policy)
                (path_entries xml) rs)
  /\ (forall tg cs,
         path_item policy (ET.Elem tg (Some "1|2|x|y|C:\foo") cs)
         = Ok (mkPathExclusion (name policy) (guid policy) "path" "2" "C:\foo")).
Proof.
  split; [|reflexivity].
  intros Hall. rewrite parse_path_exclusions_entries.
  destruct (map_result_total (path_item policy) (path_entries xml)) as [rs Hrs].
  { intros item Hin. destruct (Hall item Hin) as [t [Ht Hlen]].
    destruct (five_fields _ Hlen) as (f0 & f1 & f2 & f3 & f4 & rest & E).
    unfold path_item, split_text. rewrite Ht; simpl. rewrite E; simpl. eauto. }
  exists rs. split; [assumption|].
  apply map_result_Ok in Hrs.
  eapply Forall2_impl; [|exact Hrs].
  intros item r Hr. apply path_item_Ok in Hr as (t & f1 & f4 & Ht & H1 & H4 & ->).
  exists t; simpl. repeat split; assumption || reflexivity.
Qed.

Lemma path_record_fields_witness :
  exists rs,
    parse_path_exclusions sample_policy
      (two_path_policy "1|2|x|y|C:\foo" "3|4|a|b|*.tmp|more") = Ok rs
    /\ Forall2 (fun item r =>
                  exists t, ET.text item = Some t
                    /\ e_class r = "path"
                    /\ nth_error (Py.split "|" t) 1 = Some (e_type r)
                    /\ nth_error (Py.split "|" t) 4 = Some (e_value r)
                    /\ p_name r = name sample_policy
                    /\ p_guid r = guid sample_policy)
               (path_entries
                  (two_path_policy "1|2|x|y|C:\foo" "3|4|a|b|*.tmp|more")) rs.
Proof.
  apply (proj1 (path_record_fields sample_policy
                  (two_path_policy "1|2|x|y|C:\foo" "3|4|a|b|*.tmp|more"))).
  intros item Hin. simpl in Hin.
  destruct Hin as [<-|[<-|[]]]; eexists; (split; [reflexivity|simpl; lia]).
Defined.

(** ** C7: a policy without exclusions *)

Lemma flat_map_nil {A B : Type} (f : A -> list B) (l : list A) :
  (forall x, In x l -> f x = []) -> flat_map f l = [].
Proof.
  induction l as [|a l IH]; simpl; intros H; [reflexivity|].
  rewrite (H a) by now left. apply IH. intros; apply H; now right.
Qed.

(** C7: for a policy XML without an [exclusions] element both parsers
    return the empty collection; so does the path parser when no [info]
    element below an [exclusions] element has an entry, and the process
    parser when no [process] element below one has an entry. *)
Theorem no_entries_no_records (policy : Policy) (xml : ET.Element) :
  (ET.iter ns_exclusions xml = [] ->
   parse_path_exclusions policy xml = Ok []
   /\ parse_process_exclusions policy xml = Ok [])
  /\ ((forall ex i, In ex (ET.iter ns_exclusions xml) ->
                    In i (ET.iter ns_info ex) -> ET.children i = []) ->
      parse_path_exclusions policy xml = Ok [])
  /\ ((forall ex i, In ex (ET.iter ns_exclusions xml) ->
                    In i (ET.iter ns_process ex) -> ET.children i = []) ->
      parse_process_exclusions policy xml = Ok []).
Proof.
  split; [|split].
  - intros H. unfold parse_path_exclusions, parse_process_exclusions.
    now rewrite H.
  - intros H. rewrite parse_path_exclusions_entries. unfold path_entries.
    rewrite flat_map_nil; [reflexivity|].
    intros ex Hex. apply flat_map_nil. intros i Hi. eapply H; eassumption.
  - intros H. rewrite parse_process_exclusions_entries. unfold process_entries.
    rewrite flat_map_nil; [reflexivity|].
    intros ex Hex. apply flat_map_nil. intros i Hi. eapply H; eassumption.
Qed.

(** ** Group keys *)

Lemma insert_sorted_perm (k : string) (l : list string) :
  Permutation (k :: l) (Pd.insert_sorted k l).
Proof.
  induction l as [|x l IH]; simpl; [reflexivity|].
  destruct (String.leb k x); [reflexivity|].
  rewrite perm_swap. now apply perm_skip.
Qed.

Lemma sorted_keys_perm (l : list string) :
  Permutation (nodup string_dec l) (Pd.sorted_keys l).
Proof.
  unfold Pd.sorted_keys.
  induction (nodup string_dec l) as [|x l' IH]; simpl; [reflexivity|].
  rewrite <- insert_sorted_perm. now apply perm_skip.
Qed.

Lemma sorted_keys_In (k : string) (l : list string) :
  In k (Pd.sorted_keys l) <-> In k l.
Proof.
  split; intros H.
  - apply (nodup_In string_dec).
    eapply Permutation_in; [symmetry; apply sorted_keys_perm | exact H].
  - eapply Permutation_in; [apply sorted_keys_perm|].
    now apply (nodup_In string_dec).
Qed.

Lemma sorted_keys_NoDup (l : list string) : NoDup (Pd.sorted_keys l).
Proof.
  eapply Permutation_NoDup; [apply sorted_keys_perm | apply NoDup_nodup].
Qed.

Lemma has_label_In (x : string) (l : list string) :
  Pd.has_label x l = true <-> In x l.
Proof.
  unfold Pd.has_label. rewrite existsb_exists. split.
  - intros [y [Hy E]]. apply String.eqb_eq in E. now subst.
  - intros H. exists x. split; [assumption | apply String.eqb_refl].
Qed.

(** ** Counting *)

Lemma count_cons {A : Type} (p : A -> bool) (a : A) (l : list A) :
  Pd.count p (a :: l) = Z.b2z (p a) + Pd.count p l.
Proof.
  unfold Pd.count; simpl. destruct (p a); simpl Z.b2z; simpl List.length; lia.
Qed.

Lemma count_ext {A : Type} (p q : A -> bool) (l : list A) :
  (forall x, p x = q x) -> Pd.count p l = Pd.count q l.
Proof.
  intros E. unfold Pd.count. now rewrite (filter_ext p q E).
Qed.

Section Groups.

Context {R : Type} (f : R -> bool) (p : R -> bool).

Lemma group_np_sum (g : R * bool -> bool) (rs : list R) :
  Pd.np_sum (map g (filter (fun d => p (fst d)) (combine rs (map f rs))))
  = Pd.count (fun r => p r && g (r, f r)) rs.
Proof.
  induction rs as [|a rs IH]; [reflexivity|].
  rewrite count_cons. simpl.
  destruct (p a); simpl; rewrite IH; reflexivity.
Qed.

Lemma group_len (rs : list R) :
  Z.of_nat (List.length (filter (fun d => p (fst d)) (combine rs (map f rs))))
  = Pd.count p rs.
Proof.
  induction rs as [|a rs IH]; [reflexivity|].
  rewrite count_cons. simpl.
  destruct (p a); simpl Z.b2z; simpl List.length; lia.
Qed.

End Groups.

(** ** Tables with keyed rows *)

Lemma select_keyed (labels cols : list string) (cells sel : string -> list Z)
  (keys : list string) :
  (forall k, map_result (Pd.loc cols (cells k)) labels = Ok (sel k)) ->
  Pd.select labels (mkTable cols (keyed_rows keys cells))
  = Ok (mkTable labels (keyed_rows keys sel)).
Proof.
  intros E. unfold Pd.select, keyed_rows; simpl.
  assert (H : map_result
                (fun r => let* cs := map_result (Pd.loc cols (snd r)) labels in
                          Ok (fst r, cs))
                (map (fun k => (k, cells k)) keys)
              = Ok (map (fun k => (k, sel k)) keys)).
  { induction keys as [|k keys IH]; simpl; [reflexivity|].
    rewrite E; simpl. now rewrite IH. }
  now rewrite H.
Qed.

Lemma advisory_keyed (test : Z -> bool) (cols : list string)
  (cells : string -> list Z) (total : string -> Z) (keys : list string) :
  (forall k, Pd.loc cols (cells k) "Total Exclusions" = Ok (total k)) ->
  advisory test (mkTable cols (keyed_rows keys cells))
  = Ok (map (fun k => (k, total k)) (filter (fun k => test (total k)) keys)).
Proof.
  intros E. unfold advisory, keyed_rows; simpl.
  enough (H : forall acc,
             for_each (map (fun k => (k, cells k)) keys)
               (fun r acc =>
                  let* t := Pd.loc cols (snd r) "Total Exclusions" in
                  if test t then Ok (acc ++ [(fst r, t)]) else Ok acc) acc
             = Ok (acc ++ map (fun k => (k, total k))
                              (filter (fun k => test (total k)) keys)))
    by apply (H []).
  induction keys as [|k keys IH]; intros acc; simpl.
  - now rewrite app_nil_r.
  - rewrite E; simpl. destruct (test (total k)); simpl; rewrite IH; simpl.
    + now rewrite <- app_assoc.
    + reflexivity.
Qed.

(** ** The process summary *)

Lemma pivot_table_reported (rs : list ProcessExclusion) :
  pivot_table (reported_frame rs)
  = Ok (mkTable
          ["File Scan"; "File Scan Child"; "Malicious Activity";
           "Malicious Activity Child"; "Policy GUID";
           "System Process Protection"; "System Process Protection Child"]
          (keyed_rows (Pd.sorted_keys (map Policy_Name rs))
             (fun k =>
                [process_count rs k (fun r => Py.in_range 0 3 (Exclusion_Flag r));
                 process_count rs k File_Scan_Child;
                 process_count rs k Malicious_Activity;
                 process_count rs k Malicious_Activity_Child;
                 process_count rs k (fun _ => true);
                 process_count rs k System_Process_Protection;
                 process_count rs k System_Process_Protection_Child]))).
Proof.
  unfold pivot_table, reported_frame, keyed_rows, process_count; simpl.
  do 2 f_equal. apply map_ext. intros k. f_equal.
  repeat match goal with
         | |- _ :: _ = _ :: _ => f_equal
         end;
    try (rewrite (group_np_sum _ (fun r => String.eqb (Policy_Name r) k));
         reflexivity).
  rewrite (group_len _ (fun r => String.eqb (Policy_Name r) k)).
  apply count_ext. intros x. now rewrite andb_true_r.
Qed.

(** What [exclusion_report] does when the path summary can be built and the
    process frame has rows. *)
Lemma exclusion_report_eq (st : Store) (tbl : Table) :
  path_summary (path st) = Ok tbl ->
  records (process st) <> [] ->
  exclusion_report st
  = ({| path := path st; process := reported_frame (records (process st)) |},
     Ok {| path_exc := tbl;
           pvt_process := process_summary (records (process st));
           pvt_display := process_display (records (process st));
           caution_list := flagged (Py.in_range 90 101) (records (process st));
           warning_list := flagged (fun total => 100 <? total)
                                   (records (process st)) |}).
Proof.
  intros Hpath Hrows. unfold exclusion_report. rewrite Hpath.
  unfold assign_File_Scan.
  destruct (records (process st)) as [|r0 rs0] eqn:Hrs; [contradiction|].
  fold (reported_frame (r0 :: rs0)). f_equal.
  rewrite pivot_table_reported. set (rs := r0 :: rs0).
  unfold bind at 1. unfold Pd.rename; simpl columns; simpl rows.
  change (map pivot_column_names _) with
    ["File Scan"; "File Scan Child"; "Malicious Activity";
     "Malicious Activity Child"; "Total Exclusions";
     "System Process Protection"; "System Process Protection Child"].
  rewrite (select_keyed _ _ _ (summary_row rs)) by (intros k; reflexivity).
  unfold bind at 1.
  rewrite (advisory_keyed _ _ _ (fun k => process_count rs k (fun _ => true)))
    by (intros k; reflexivity).
  unfold bind at 1.
  rewrite (advisory_keyed _ _ _ (fun k => process_count rs k (fun _ => true)))
    by (intros k; reflexivity).
  unfold bind at 1.
  unfold Pd.drop_columns.
  change (for_each _ _ tt) with (Ok tt). unfold bind at 1.
  change (filter _ (columns _)) with
    ["File Scan"; "System Process Protection"; "Malicious Activity";
     "Total Exclusions"].
  rewrite (select_keyed _ _ _ (display_row rs)) by (intros k; reflexivity).
  reflexivity.
Qed.

Lemma exclusion_report_Ok (st : Store) (rep : Report) :
  snd (exclusion_report st) = Ok rep ->
  path_summary (path st) = Ok (path_exc rep)
  /\ records (process st) <> []
  /\ fst (exclusion_report st)
     = {| path := path st; process := reported_frame (records (process st)) |}
  /\ pvt_process rep = process_summary (records (process st))
  /\ caution_list rep = flagged (Py.in_range 90 101) (records (process st))
  /\ warning_list rep = flagged (fun total => 100 <? total)
                                (records (process st)).
Proof.
  destruct (path_summary (path st)) as [tbl|e] eqn:Hpath.
  - destruct (records (process st)) as [|r0 rs0] eqn:Hrs.
    + unfold exclusion_report, assign_File_Scan. rewrite Hpath, Hrs.
      discriminate.
    + rewrite (exclusion_report_eq st tbl Hpath) by (rewrite Hrs; discriminate).
      rewrite Hrs. simpl. intros H; injection H as <-. simpl.
      repeat split; discriminate || reflexivity.
  - unfold exclusion_report. rewrite Hpath. discriminate.
Qed.

Lemma keyed_rows_In (keys : list string) (cells : string -> list Z)
  (k : string) (c : list Z) :
  In (k, c) (keyed_rows keys cells) <-> In k keys /\ c = cells k.
Proof.
  unfold keyed_rows. rewrite in_map_iff. split.
  - intros [x [E Hx]]. injection E as <- <-. auto.
  - intros [Hk ->]. eauto.
Qed.

Lemma keyed_rows_keys (keys : list string) (cells : string -> list Z) :
  map fst (keyed_rows keys cells) = keys.
Proof.
  unfold keyed_rows. rewrite map_map. simpl. apply map_id.
Qed.

Lemma flagged_In (test : Z -> bool) (rs : list ProcessExclusion)
  (policy : string) (n : Z) :
  In (policy, n) (flagged test rs)
  <-> In policy (map Policy_Name rs)
      /\ n = process_count rs policy (fun _ => true)
      /\ test (process_count rs policy (fun _ => true)) = true.
Proof.
  unfold flagged. rewrite in_map_iff. split.
  - intros [k [E Hk]]. injection E as <- <-.
    apply filter_In in Hk as [Hk Ht].
    apply (proj1 (sorted_keys_In _ _)) in Hk. auto.
  - intros (Hk & -> & Ht). exists policy. split; [reflexivity|].
    apply filter_In. split; [now apply sorted_keys_In | assumption].
Qed.

Lemma flagged_name_In (test : Z -> bool) (rs : list ProcessExclusion)
  (policy : string) :
  In policy (map fst (flagged test rs))
  <-> In policy (map Policy_Name rs)
      /\ test (process_count rs policy (fun _ => true)) = true.
Proof.
  rewrite in_map_iff. split.
  - intros [[k n] [E H]]. simpl in E; subst k.
    apply flagged_In in H as (H1 & _ & H3). split; assumption.
  - intros [Hk Ht]. exists (policy, process_count rs policy (fun _ => true)).
    split; [reflexivity|]. apply flagged_In. repeat split; assumption.
Qed.

Lemma process_count_all (rs : list ProcessExclusion) (policy : string) :
  process_count rs policy (fun _ => true)
  = Pd.count (fun r => String.eqb (Policy_Name r) policy) rs.
Proof.
  apply count_ext. intros r. apply andb_true_r.
Qed.

(** ** The path summary *)

Lemma count_combine {A : Type} (f g : A -> string)
  (p : string * string -> bool) (l : list A) :
  Pd.count p (combine (map f l) (map g l))
  = Pd.count (fun x => p (f x, g x)) l.
Proof.
  induction l as [|a l IH]; [reflexivity|].
  simpl combine. now rewrite !count_cons, IH.
Qed.

Lemma filter_all {A : Type} (f : A -> bool) (l : list A) :
  (forall x, In x l -> f x = true) -> filter f l = l.
Proof.
  induction l as [|a l IH]; simpl; intros H; [reflexivity|].
  rewrite (H a) by now left. f_equal. apply IH. intros; apply H; now right.
Qed.

Lemma path_summary_Ok (path : list PathExclusion) (tbl : Table) :
  path_summary path = Ok tbl ->
  path <> []
  /\ ~ In margins_name (map p_name path)
  /\ ~ In margins_name (map e_type path)
  /\ tbl = {| columns := map path_column_names
                           (Pd.sorted_keys (map e_type path) ++ [margins_name]);
              rows := keyed_rows (Pd.sorted_keys (map p_name path))
                        (fun r => map (path_type_count path r)
                                      (Pd.sorted_keys (map e_type path))
                                  ++ [path_count path r]) |}.
Proof.
  unfold path_summary. destruct path as [|e0 path0] eqn:Hp; [discriminate|].
  assert (Hne : path <> []) by (rewrite Hp; discriminate).
  rewrite <- Hp. clear Hp e0 path0. unfold Pd.crosstab.
  destruct (Pd.has_label margins_name (Pd.sorted_keys (map p_name path)))
    eqn:Hr; [discriminate|].
  destruct (Pd.has_label margins_name (Pd.sorted_keys (map e_type path)))
    eqn:Hc; [discriminate|].
  assert (Hr' : ~ In margins_name (map p_name path)).
  { intros H. apply (proj2 (sorted_keys_In _ _)) in H.
    apply (proj2 (has_label_In _ _)) in H. congruence. }
  assert (Hc' : ~ In margins_name (map e_type path)).
  { intros H. apply (proj2 (sorted_keys_In _ _)) in H.
    apply (proj2 (has_label_In _ _)) in H. congruence. }
  simpl. unfold Pd.last_label, Pd.rename; simpl.
  rewrite rev_app_distr; simpl.
  intros H; injection H as <-.
  split; [assumption|split; [assumption|split; [assumption|]]].
  unfold Pd.drop; simpl. f_equal.
  rewrite filter_app.
  change (filter _ [_]) with (@nil (string * list Z)).
  rewrite app_nil_r, filter_all.
  - unfold keyed_rows. apply map_ext. intros r. f_equal. f_equal.
    + apply map_ext. intros c.
      exact (count_combine p_name e_type
               (fun d => String.eqb (fst d) r && String.eqb (snd d) c) path).
    + f_equal.
      exact (count_combine p_name e_type
               (fun d => String.eqb (fst d) r) path).
  - intros [r cells] Hin. simpl.
    apply in_map_iff in Hin as [k [E Hk]]. injection E as <- _.
    apply negb_true_iff, String.eqb_neq. intros ->.
    apply Hr'. now apply sorted_keys_In.
Qed.

Lemma path_summary_total (path : list PathExclusion) :
  path <> [] ->
  ~ In margins_name (map p_name path) ->
  ~ In margins_name (map e_type path) ->
  exists tbl, path_summary path = Ok tbl.
Proof.
  intros Hp Hr Hc. unfold path_summary.
  destruct path as [|e0 path0] eqn:E; [contradiction|].
  rewrite <- E in *. clear E e0 path0. unfold Pd.crosstab.
  replace (Pd.has_label margins_name (Pd.sorted_keys (map p_name path)))
    with false.
  2:{ symmetry. apply not_true_is_false. intros H.
      apply (proj1 (has_label_In _ _)) in H.
      apply (proj1 (sorted_keys_In _ _)) in H. contradiction. }
  replace (Pd.has_label margins_name (Pd.sorted_keys (map e_type path)))
    with false.
  2:{ symmetry. apply not_true_is_false. intros H.
      apply (proj1 (has_label_In _ _)) in H.
      apply (proj1 (sorted_keys_In _ _)) in H. contradiction. }
  simpl. unfold Pd.last_label, Pd.rename; simpl.
  rewrite rev_app_distr; simpl. eauto.
Qed.

Lemma exclusion_report_returns (st : Store) :
  path st <> [] ->
  ~ In margins_name (map p_name (path st)) ->
  ~ In margins_name (map e_type (path st)) ->
  records (process st) <> [] ->
  exists rep, snd (exclusion_report st) = Ok rep.
Proof.
  intros Hp Hr Hc Hrs.
  destruct (path_summary_total (path st) Hp Hr Hc) as [tbl Htbl].
  rewrite (exclusion_report_eq st tbl Htbl Hrs). simpl. eauto.
Qed.

(** ** Row sums *)

Lemma row_sum_zero {A : Type} (l : list A) : row_sum (map (fun _ => 0) l) = 0.
Proof. induction l as [|a l IH]; simpl; [reflexivity|]. exact IH. Qed.

Lemma row_sum_add {A : Type} (f g : A -> Z) (l : list A) :
  row_sum (map (fun x => f x + g x) l) = row_sum (map f l) + row_sum (map g l).
Proof.
  induction l as [|a l IH]; simpl; [reflexivity|].
  unfold row_sum in *; simpl. lia.
Qed.

(** Exactly one key of a duplicate-free list of keys equals a member. *)
Lemma row_sum_indicator (b : bool) (x : string) (keys : list string) :
  NoDup keys -> In x keys ->
  row_sum (map (fun c => Z.b2z (b && String.eqb x c)) keys) = Z.b2z b.
Proof.
  induction 1 as [|k keys Hk Hnd IH]; simpl; [tauto|].
  intros [->|Hin].
  - rewrite String.eqb_refl, andb_true_r.
    rewrite (map_ext_in _ (fun _ => 0)), row_sum_zero; [lia|].
    intros c Hc. destruct (String.eqb_spec x c) as [->|]; [contradiction|].
    now rewrite andb_false_r.
  - destruct (String.eqb_spec x k) as [->|]; [contradiction|].
    rewrite andb_false_r. simpl. now apply IH.
Qed.

(** The counts of a policy over all type codes add up to its records. *)
Lemma type_counts_add_up (path : list PathExclusion) (policy : string)
  (keys : list string) :
  NoDup keys ->
  (forall e, In e path -> In (e_type e) keys) ->
  row_sum (map (path_type_count path policy) keys) = path_count path policy.
Proof.
  intros Hnd. induction path as [|e path IH]; intros Hall.
  - unfold path_type_count, path_count. simpl. apply row_sum_zero.
  - unfold path_count. rewrite count_cons. fold (path_count path policy).
    rewrite <- IH by (intros; apply Hall; now right).
    rewrite <- (row_sum_indicator (String.eqb (p_name e) policy) (e_type e) keys)
      by (assumption || apply Hall; now left).
    rewrite <- row_sum_add. f_equal. apply map_ext. intros c.
    unfold path_type_count. now rewrite count_cons.
Qed.

Lemma position_last (label : string) (l : list string) :
  ~ In label l -> Pd.position label (l ++ [label]) = Some (List.length l).
Proof.
  induction l as [|x l IH]; simpl; intros H.
  - now rewrite String.eqb_refl.
  - destruct (String.eqb_spec x label) as [->|]; [tauto|].
    rewrite IH by tauto. reflexivity.
Qed.

Lemma loc_last (label : string) (cols : list string) (vals : list Z) (v : Z) :
  ~ In label cols -> List.length cols = List.length vals ->
  Pd.loc (cols ++ [label]) (vals ++ [v]) label = Ok v.
Proof.
  intros Hin Hlen. unfold Pd.loc. rewrite position_last by assumption.
  rewrite Hlen, nth_error_app2, Nat.sub_diag by lia. reflexivity.
Qed.

Lemma path_column_names_margin (c : string) :
  path_column_names c = margins_name -> c = margins_name.
Proof.
  unfold path_column_names.
  repeat match goal with
         | |- context [String.eqb c ?x] => destruct (String.eqb c x)
         end; try discriminate; auto.
Qed.

(** ** C5: the summaries and the records *)

(** C5: whenever the report is produced (it is when both frames have rows
    and no policy name or type code is ['Total Exclusions']), the path
    matrix has one row for every policy name of the path records, its
    ['Total Exclusions'] cell and the sum of its type cells both equal the
    number of path records with that policy name; the process pivot has one
    row for every policy name of the process records and its
    ['Total Exclusions'] cell equals the number of process records with
    that policy name. *)
Theorem summary_totals (st : Store) :
  (path st <> [] ->
   ~ In margins_name (map p_name (path st)) ->
   ~ In margins_name (map e_type (path st)) ->
   records (process st) <> [] ->
   exists rep, snd (exclusion_report st) = Ok rep)
  /\ (forall rep, snd (exclusion_report st) = Ok rep ->
      (forall policy,
          In policy (map fst (rows (path_exc rep)))
          <-> In policy (map p_name (path st)))
      /\ (forall policy cells,
             In (policy, cells) (rows (path_exc rep)) ->
             Pd.loc (columns (path_exc rep)) cells "Total Exclusions"
             = Ok (path_count (path st) policy)
             /\ row_sum (removelast cells) = path_count (path st) policy)
      /\ (forall policy,
             In policy (map fst (rows (pvt_process rep)))
             <-> In policy (map Policy_Name (records (process st))))
      /\ (forall policy cells,
             In (policy, cells) (rows (pvt_process rep)) ->
             Pd.loc (columns (pvt_process rep)) cells "Total Exclusions"
             = Ok (Pd.count (fun r => String.eqb (Policy_Name r) policy)
                            (records (process st))))).
Proof.
  split; [apply exclusion_report_returns|].
  intros rep Hrep.
  apply exclusion_report_Ok in Hrep as (Hpath & _ & _ & Hpvt & _ & _).
  apply path_summary_Ok in Hpath as (_ & _ & Hc & Htbl).
  rewrite Htbl, Hpvt. simpl. repeat split.
  - rewrite keyed_rows_keys. apply sorted_keys_In.
  - rewrite keyed_rows_keys. apply sorted_keys_In.
  - apply keyed_rows_In in H as [_ ->]. rewrite map_app. simpl.
    apply loc_last.
    + intros Hin. apply in_map_iff in Hin as [c [E Hin]].
      apply path_column_names_margin in E. subst c.
      apply Hc. now apply (proj1 (sorted_keys_In _ _)).
    + now rewrite !length_map.
  - apply keyed_rows_In in H as [_ ->]. rewrite removelast_last.
    apply type_counts_add_up; [apply sorted_keys_NoDup|].
    intros e He. apply sorted_keys_In. now apply in_map.
  - rewrite keyed_rows_keys. apply sorted_keys_In.
  - rewrite keyed_rows_keys. apply sorted_keys_In.
  - intros policy cells H. apply keyed_rows_In in H as [_ ->].
    rewrite <- process_count_all. reflexivity.
Qed.

Lemma sample_report_eq : snd (exclusion_report sample_store) = Ok sample_report.
Proof. vm_compute. reflexivity. Qed.

Lemma summary_totals_witness :
  (exists rep, snd (exclusion_report sample_store) = Ok rep)
  /\ Pd.loc (columns (path_exc sample_report)) [0; 2; 1; 3] "Total Exclusions"
     = Ok (path_count (path sample_store) "A")
  /\ row_sum (removelast [0; 2; 1; 3]) = path_count (path sample_store) "A"
  /\ Pd.loc (columns (pvt_process sample_report)) [0; 105; 105; 0; 0; 0; 105]
            "Total Exclusions"
     = Ok (Pd.count (fun r => String.eqb (Policy_Name r) "B")
                    (records (process sample_store))).
Proof.
  destruct (summary_totals sample_store) as [Hret Hok].
  destruct (Hok sample_report sample_report_eq) as (_ & Hpath & _ & Hproc).
  assert (HA : In ("A", [0; 2; 1; 3]) (rows (path_exc sample_report)))
    by (vm_compute; left; reflexivity).
  assert (HB : In ("B", [0; 105; 105; 0; 0; 0; 105])
                  (rows (pvt_process sample_report)))
    by (vm_compute; right; left; reflexivity).
  split; [|split; [|split]].
  - apply Hret.
    + discriminate.
    + vm_compute. intuition discriminate.
    + vm_compute. intuition discriminate.
    + discriminate.
  - exact (proj1 (Hpath "A" [0; 2; 1; 3] HA)).
  - exact (proj2 (Hpath "A" [0; 2; 1; 3] HA)).
  - exact (Hproc "B" [0; 105; 105; 0; 0; 0; 105] HB).
Defined.

(** ** C3 and C9: the thresholds *)

Lemma in_range_spec (lo hi x : Z) :
  Py.in_range lo hi x = true <-> lo <= x < hi.
Proof. unfold Py.in_range. lia. Qed.

(** C3: whenever the report is produced, a policy of the process summary
    with total [t] is in the caution list iff [90 <= t <= 100] and in the
    warning list iff [t > 100], the lists carry that total, and a policy
    with [t < 90] is in neither list. *)
Theorem threshold_classification (st : Store) (rep : Report)
  (policy : string) (cells : list Z) :
  snd (exclusion_report st) = Ok rep ->
  In (policy, cells) (rows (pvt_process rep)) ->
  exists total,
    Pd.loc (columns (pvt_process rep)) cells "Total Exclusions" = Ok total
    /\ (In policy (map fst (caution_list rep)) <-> 90 <= total <= 100)
    /\ (In policy (map fst (warning_list rep)) <-> 100 < total)
    /\ (forall n, In (policy, n) (caution_list rep ++ warning_list rep) ->
                  n = total)
    /\ (total < 90 ->
        ~ In policy (map fst (caution_list rep))
        /\ ~ In policy (map fst (warning_list rep))).
Proof.
  clear py_int py_storable py_int_raises.
  intros Hrep Hrow.
  apply exclusion_report_Ok in Hrep as (_ & _ & _ & Hpvt & Hcau & Hwarn).
  rewrite Hpvt in *. rewrite Hcau, Hwarn. simpl in Hrow.
  apply keyed_rows_In in Hrow as [Hkey ->].
  apply (proj1 (sorted_keys_In _ _)) in Hkey.
  set (rs := records (process st)) in *.
  exists (process_count rs policy (fun _ => true)).
  assert (Hc : In policy (map fst (flagged (Py.in_range 90 101) rs))
               <-> 90 <= process_count rs policy (fun _ => true) <= 100).
  { rewrite flagged_name_In, in_range_spec. intuition lia. }
  assert (Hw : In policy (map fst (flagged (fun t => 100 <? t) rs))
               <-> 100 < process_count rs policy (fun _ => true)).
  { rewrite flagged_name_In, Z.ltb_lt. tauto. }
  split; [reflexivity|]. split; [exact Hc|]. split; [exact Hw|]. split.
  - intros n Hn. apply in_app_or in Hn as [Hn|Hn];
      apply flagged_In in Hn; tauto.
  - intros Hlt. rewrite Hc, Hw. lia.
Qed.

Lemma threshold_classification_witness :
  (exists total,
      Pd.loc (columns (pvt_process sample_report)) [95; 0; 0; 0; 0; 0; 95]
             "Total Exclusions" = Ok total
      /\ (In "A" (map fst (caution_list sample_report)) <-> 90 <= total <= 100)
      /\ (In "A" (map fst (warning_list sample_report)) <-> 100 < total)
      /\ (forall n, In ("A", n) (caution_list sample_report
                                 ++ warning_list sample_report) -> n = total)
      /\ (total < 90 ->
          ~ In "A" (map fst (caution_list sample_report))
          /\ ~ In "A" (map fst (warning_list sample_report))))
  /\ caution_list sample_report = [("A", 95)]
  /\ warning_list sample_report = [("B", 105)].
Proof.
  split; [|split; vm_compute; reflexivity].
  apply (threshold_classification sample_store sample_report "A"
           [95; 0; 0; 0; 0; 0; 95]).
  - exact sample_report_eq.
  - vm_compute. left. reflexivity.
Defined.

(** C9: whenever the report is produced, no policy of the caution list is
    in the warning list. *)
Theorem caution_warning_disjoint (st : Store) (rep : Report) (policy : string) :
  snd (exclusion_report st) = Ok rep ->
  In policy (map fst (caution_list rep)) ->
  ~ In policy (map fst (warning_list rep)).
Proof.
  intros Hrep Hc Hw.
  apply exclusion_report_Ok in Hrep as (_ & _ & _ & _ & Hcau & Hwarn).
  rewrite Hcau in Hc. rewrite Hwarn in Hw.
  apply flagged_name_In in Hc as [_ Hc]. apply flagged_name_In in Hw as [_ Hw].
  apply in_range_spec in Hc. apply Z.ltb_lt in Hw. lia.
Qed.

Lemma caution_warning_disjoint_witness :
  ~ In "A" (map fst (warning_list sample_report)).
Proof.
  apply (caution_warning_disjoint sample_store sample_report "A").
  - exact sample_report_eq.
  - vm_compute. left. reflexivity.
Defined.

(** ** C4: the File Scan count *)

(** C4: whenever the report is produced, every policy that has process
    records has a row in the pivot, and the ['File Scan'] cell of that row
    is the number of process records with that policy name whose raw flag
    is in [range(0, 3)], that is 0, 1 or 2; no decoded boolean takes
    part. *)
Theorem file_scan_count (st : Store) (rep : Report) :
  snd (exclusion_report st) = Ok rep ->
  (forall policy,
      In policy (map Policy_Name (records (process st))) ->
      exists cells,
        In (policy, cells) (rows (pvt_process rep))
        /\ Pd.loc (columns (pvt_process rep)) cells "File Scan"
           = Ok (Pd.count (fun r => String.eqb (Policy_Name r) policy
                                    && ((0 <=? Exclusion_Flag r)
                                        && (Exclusion_Flag r <? 3)))
                          (records (process st))))
  /\ (forall policy cells,
      In (policy, cells) (rows (pvt_process rep)) ->
      Pd.loc (columns (pvt_process rep)) cells "File Scan"
      = Ok (Pd.count (fun r => String.eqb (Policy_Name r) policy
                               && ((0 <=? Exclusion_Flag r)
                                   && (Exclusion_Flag r <? 3)))
                     (records (process st))))
  /\ File_Scan (process (fst (exclusion_report st)))
     = Some (map (fun r => (0 <=? Exclusion_Flag r) && (Exclusion_Flag r <? 3))
                 (records (process st)))
  /\ (forall flag, (0 <=? flag) && (flag <? 3) = true
                   <-> flag = 0 \/ flag = 1 \/ flag = 2).
Proof.
  intros Hrep.
  apply exclusion_report_Ok in Hrep as (_ & _ & Hst & Hpvt & _ & _).
  rewrite Hst, Hpvt. simpl. split; [|split; [|split]].
  - intros policy Hin.
    exists (summary_row (records (process st)) policy). split; [|reflexivity].
    apply keyed_rows_In. split; [|reflexivity]. now apply sorted_keys_In.
  - intros policy cells H. apply keyed_rows_In in H as [_ ->]. reflexivity.
  - reflexivity.
  - intros flag. lia.
Qed.

Lemma file_scan_count_witness :
  (exists cells,
      In ("A", cells) (rows (pvt_process sample_report))
      /\ Pd.loc (columns (pvt_process sample_report)) cells "File Scan"
         = Ok (Pd.count (fun r => String.eqb (Policy_Name r) "A"
                                  && ((0 <=? Exclusion_Flag r)
                                      && (Exclusion_Flag r <? 3)))
                        (records (process sample_store))))
  /\ Pd.loc (columns (pvt_process sample_report)) [95; 0; 0; 0; 0; 0; 95]
            "File Scan"
     = Ok (Pd.count (fun r => String.eqb (Policy_Name r) "A"
                              && ((0 <=? Exclusion_Flag r)
                                  && (Exclusion_Flag r <? 3)))
                    (records (process sample_store)))
  /\ Pd.count (fun r => String.eqb (Policy_Name r) "A"
                        && ((0 <=? Exclusion_Flag r) && (Exclusion_Flag r <? 3)))
              (records (process sample_store)) = 95
  /\ File_Scan (process (fst (exclusion_report sample_store)))
     = Some (map (fun r => (0 <=? Exclusion_Flag r) && (Exclusion_Flag r <? 3))
                 (records (process sample_store))).
Proof.
  destruct (file_scan_count sample_store sample_report sample_report_eq)
    as (Hrow & Hcell & Hcol & _).
  split; [|split; [|split]].
  - apply Hrow. vm_compute. left. reflexivity.
  - apply Hcell. vm_compute. left. reflexivity.
  - vm_compute. reflexivity.
  - exact Hcol.
Defined.

(** ** C8: running the report twice *)

(** C8: a second run of the report on the frames that the first run leaves
    behind gives what the first run gave (the same tables and advisory
    lists, or the same exception) and leaves the frames as they are. *)
Theorem exclusion_report_twice (st : Store) :
  exclusion_report (fst (exclusion_report st)) = exclusion_report st.
Proof.
  destruct (path_summary (path st)) as [tbl|e] eqn:Hpath.
  - destruct (records (process st)) as [|r0 rs0] eqn:Hrs.
    + assert (E : exclusion_report st = (st, Raise KeyError)).
      { unfold exclusion_report, assign_File_Scan. now rewrite Hpath, Hrs. }
      rewrite E. simpl. exact E.
    + assert (Hne : records (process st) <> []) by (rewrite Hrs; discriminate).
      rewrite (exclusion_report_eq st tbl Hpath Hne). simpl fst.
      rewrite (exclusion_report_eq _ tbl); simpl; auto.
  - assert (E : exclusion_report st = (st, Raise e)).
    { unfold exclusion_report. now rewrite Hpath. }
    rewrite E. simpl. exact E.
Qed.

(** ** C10: what the report changes *)

(** C10: the report never changes the path frame; whenever it returns, the
    caller's process frame has the same rows and the column ['File Scan']
    with the range test of every row's flag, so that a frame that came
    without that column is not what it was. *)
Theorem exclusion_report_frame (st : Store) :
  path (fst (exclusion_report st)) = path st
  /\ (forall rep,
         snd (exclusion_report st) = Ok rep ->
         records (process (fst (exclusion_report st))) = records (process st)
         /\ File_Scan (process (fst (exclusion_report st)))
            = Some (map (fun r => Py.in_range 0 3 (Exclusion_Flag r))
                        (records (process st)))
         /\ (File_Scan (process st) = None ->
             process (fst (exclusion_report st)) <> process st)).
Proof.
  split.
  - unfold exclusion_report.
    destruct (path_summary (path st)); [|reflexivity].
    destruct (assign_File_Scan (process st)); reflexivity.
  - intros rep Hrep.
    apply exclusion_report_Ok in Hrep as (_ & _ & Hst & _).
    rewrite Hst. simpl. repeat split.
    intros Hnone E. rewrite <- E in Hnone. discriminate.
Qed.

Lemma exclusion_report_frame_witness :
  path (fst (exclusion_report sample_store)) = path sample_store
  /\ records (process (fst (exclusion_report sample_store)))
     = records (process sample_store)
  /\ File_Scan (process (fst (exclusion_report sample_store)))
     = Some (map (fun r => Py.in_range 0 3 (Exclusion_Flag r))
                 (records (process sample_store)))
  /\ process (fst (exclusion_report sample_store)) <> process sample_store.
Proof.
  destruct (exclusion_report_frame sample_store) as [Hpath Hproc].
  destruct (Hproc sample_report sample_report_eq) as (Hrec & Hcol & Hne).
  split; [exact Hpath|]. split; [exact Hrec|]. split; [exact Hcol|].
  apply Hne. reflexivity.
Defined.

(** * Further properties of the parsers *)

(** ** Splitting a payload *)

Lemma split_length (sep : ascii) (s : string) :
  List.length (Py.split sep s) = S (count_char sep s).
Proof.
  induction s as [|a s IH]; simpl; [reflexivity|].
  destruct (Ascii.eqb a sep); simpl; [now rewrite IH|].
  destruct (Py.split sep s); simpl in *; lia.
Qed.

Lemma split_fields_without_separator (sep : ascii) (s f : string) :
  In f (Py.split sep s) -> count_char sep f = 0%nat.
Proof.
  revert f; induction s as [|a s IH]; simpl; intros f.
  - intros [<-|[]]. reflexivity.
  - destruct (Ascii.eqb a sep) eqn:Ea.
    + intros [<-|Hin]; [reflexivity | now apply IH].
    + destruct (Py.split sep s) as [|g gs]; simpl.
      * intros [<-|[]]. simpl. now rewrite Ea.
      * intros [<-|Hin].
        -- simpl. rewrite Ea. simpl. apply IH. now left.
        -- apply IH. now right.
Qed.

(** X1: [split] loses nothing of a payload: joining the fields with the
    separator gives the payload back, there is one field more than there
    are separators, and no field contains the separator. *)
Theorem split_join (sep : ascii) (s : string) :
  join sep (Py.split sep s) = s
  /\ List.length (Py.split sep s) = S (count_char sep s)
  /\ Forall (fun f => count_char sep f = 0%nat) (Py.split sep s).
Proof.
  split; [|split].
  - induction s as [|a s IH]; simpl; [reflexivity|].
    destruct (Ascii.eqb_spec a sep) as [->|Hne].
    + pose proof (split_length sep s) as Hlen.
      destruct (Py.split sep s) as [|g gs] eqn:E; [discriminate|].
      change (join sep ("" :: g :: gs)) with (String sep (join sep (g :: gs))).
      now rewrite IH.
    + pose proof (split_length sep s) as Hlen.
      destruct (Py.split sep s) as [|g gs] eqn:E; [discriminate|].
      destruct gs as [|h hs]; simpl in *; now rewrite <- IH.
  - apply split_length.
  - apply Forall_forall. intros f. apply split_fields_without_separator.
Qed.

(** ** When an entry gives a record *)

Lemma nth_error_4_fields (t : string) :
  (exists f4, nth_error (Py.split "|" t) 4 = Some f4)
  <-> (4 <= count_char "|" t)%nat.
Proof.
  pose proof (split_length "|" t) as Hlen. split.
  - intros [f4 H]. assert (nth_error (Py.split "|" t) 4 <> None) by congruence.
    apply nth_error_Some in H0. lia.
  - intros H. destruct (nth_error (Py.split "|" t) 4) as [f4|] eqn:E; [eauto|].
    apply nth_error_None in E. lia.
Qed.

Lemma path_item_ok_iff (policy : Policy) (item : ET.Element) :
  (exists r, path_item policy item = Ok r) <-> path_payload_ok item.
Proof.
  unfold path_payload_ok. split.
  - intros [r Hr]. apply path_item_Ok in Hr as (t & f1 & f4 & Ht & _ & H4 & _).
    exists t. split; [assumption|]. apply nth_error_4_fields. eauto.
  - intros (t & Ht & Hn). pose proof (split_length "|" t) as Hlen.
    destruct (five_fields (Py.split "|" t)) as (f0 & f1 & f2 & f3 & f4 & rest & E);
      [lia|].
    unfold path_item, split_text. rewrite Ht; simpl. rewrite E; simpl. eauto.
Qed.

Lemma path_item_raise (policy : Policy) (item : ET.Element) (e : exn) :
  path_item policy item = Raise e ->
  (e = AttributeError /\ ET.text item = None)
  \/ (e = IndexError
      /\ exists t, ET.text item = Some t /\ (count_char "|" t < 4)%nat).
Proof.
  intros H.
  destruct (ET.text item) as [t|] eqn:Ht.
  - right.
    destruct (Nat.lt_ge_cases (count_char "|" t) 4) as [Hlt|Hge].
    + rewrite (path_item_short policy item t Ht) in H
        by (rewrite split_length; lia).
      injection H as <-. eauto.
    + destruct (proj2 (path_item_ok_iff policy item)) as [r Hr].
      { exists t. auto. }
      rewrite Hr in H. discriminate.
  - left. unfold path_item, split_text in H. rewrite Ht in H.
    injection H as <-. auto.
Qed.

Lemma process_item_of_payload (policy : Policy) (item : ET.Element)
  (t f4 : string) :
  ET.text item = Some t -> nth_error (Py.split "|" t) 4 = Some f4 ->
  process_item policy item
  = let* e_flag := py_int f4 in
    match Py.split "|" t with
    | f0 :: f1 :: f2 :: f3 :: _ =>
        Ok (mkProcessExclusion (name policy) (guid policy) "process"
              f0 f1 f2 f3 e_flag
              (Py.bit_set e_flag 0) (Py.bit_set e_flag 1)
              (Py.bit_set e_flag 2) (Py.bit_set e_flag 3)
              (Py.bit_set e_flag 4) (Py.bit_set e_flag 5)
              (Py.bit_set e_flag 6) (Py.bit_set e_flag 7))
    | _ => Raise IndexError
    end.
Proof.
  intros Ht H4.
  destruct (five_fields (Py.split "|" t)) as (g0 & g1 & g2 & g3 & g4 & rest & E).
  { assert (Hn : nth_error (Py.split "|" t) 4 <> None) by congruence.
    apply nth_error_Some in Hn. lia. }
  unfold process_item, split_text. rewrite Ht. cbn [bind].
  rewrite E in *. simpl in H4. injection H4 as ->. reflexivity.
Qed.

Lemma process_entry_ok_iff (policy : Policy) (item : ET.Element) :
  (exists r, process_entry policy item = Ok r) <-> process_payload_ok item.
Proof.
  unfold process_payload_ok. split.
  - intros [r Hr]. apply process_entry_Ok in Hr as [Hr Hs].
    apply process_item_Ok in Hr
      as (t & f0 & f1 & f2 & f3 & f4 & e_flag & Ht & _ & _ & _ & _ & H4 & Hi & ->).
    now exists t, f4, e_flag.
  - intros (t & f4 & flag & Ht & H4 & Hint & Hs).
    unfold process_entry.
    rewrite (process_item_of_payload policy item t f4 Ht H4), Hint.
    destruct (five_fields (Py.split "|" t)) as (g0 & g1 & g2 & g3 & g4 & rest & E).
    { assert (Hn : nth_error (Py.split "|" t) 4 <> None) by congruence.
      apply nth_error_Some in Hn. lia. }
    rewrite E. simpl. rewrite Hs. eauto.
Qed.

Lemma process_entry_raise (policy : Policy) (item : ET.Element) (e : exn) :
  process_entry policy item = Raise e ->
  (e = AttributeError /\ ET.text item = None)
  \/ (e = IndexError
      /\ exists t, ET.text item = Some t /\ (count_char "|" t < 4)%nat)
  \/ (e = ValueError
      /\ exists t f4, ET.text item = Some t
                      /\ nth_error (Py.split "|" t) 4 = Some f4
                      /\ py_int f4 = Raise ValueError)
  \/ (e = OverflowError
      /\ exists t f4 flag, ET.text item = Some t
                           /\ nth_error (Py.split "|" t) 4 = Some f4
                           /\ py_int f4 = Ok flag
                           /\ py_storable flag = false).
Proof using Type py_int_raises.
  intros H. unfold process_entry in H.
  destruct (ET.text item) as [t|] eqn:Ht.
  - right.
    destruct (nth_error (Py.split "|" t) 4) as [f4|] eqn:E4.
    + right.
      rewrite (process_item_of_payload policy item t f4 Ht E4) in H.
      destruct (five_fields (Py.split "|" t))
        as (g0 & g1 & g2 & g3 & g4 & rest & E).
      { assert (Hn : nth_error (Py.split "|" t) 4 <> None) by congruence.
        apply nth_error_Some in Hn. lia. }
      rewrite E in H.
      destruct (py_int f4) as [z|e'] eqn:Ei; cbn [bind] in H.
      * right. cbn [Exclusion_Flag] in H.
        destruct (py_storable z) eqn:Hs; [discriminate|].
        injection H as <-. split; [reflexivity|]. now exists t, f4, z.
      * left. pose proof (py_int_raises _ _ Ei) as ->.
        injection H as <-. split; [reflexivity|]. now exists t, f4.
    + left. unfold process_item, split_text in H. rewrite Ht in H.
      cbn [bind] in H. unfold Py.index at 1 in H. rewrite E4 in H.
      cbn [bind] in H. injection H as <-.
      split; [reflexivity|]. exists t. split; [reflexivity|].
      apply nth_error_None in E4. rewrite split_length in E4. lia.
  - left. unfold process_item, split_text in H. rewrite Ht in H.
    injection H as <-. auto.
Qed.

Lemma map_result_first_failure {A B : Type} (f : A -> result B) (l : list A)
  (e : exn) :
  map_result f l = Raise e ->
  exists pre bad post,
    l = pre ++ bad :: post
    /\ Forall (fun x => exists y, f x = Ok y) pre
    /\ f bad = Raise e.
Proof.
  induction l as [|a l IH]; simpl; [discriminate|].
  destruct (f a) as [y|e'] eqn:Fa; simpl.
  - destruct (map_result f l) as [ys|e'] eqn:Fl; simpl; [discriminate|].
    intros H; injection H as ->.
    destruct (IH eq_refl) as (pre & bad & post & -> & Hpre & Hbad).
    exists (a :: pre), bad, post. repeat split; eauto.
  - intros H; injection H as ->.
    exists [], a, l. repeat split; auto.
Qed.

Lemma map_result_ok_iff {A B : Type} (f : A -> result B) (l : list A) :
  (exists ys, map_result f l = Ok ys) <-> Forall (fun x => exists y, f x = Ok y) l.
Proof.
  split.
  - intros [ys H]. apply map_result_Ok in H.
    induction H; constructor; eauto.
  - intros H. apply map_result_total. now apply Forall_forall.
Qed.

Lemma map_result_length {A B : Type} (f : A -> result B) (l : list A)
  (ys : list B) :
  map_result f l = Ok ys -> List.length ys = List.length l.
Proof.
  intros H. apply map_result_Ok in H. symmetry. eapply Forall2_length, H.
Qed.

(** X2: [parse_path_exclusions] returns records iff every entry it visits
    has a text with at least four pipes, that is five fields; it then
    returns as many records as there are entries. *)
Theorem parse_path_succeeds_iff (policy : Policy) (xml : ET.Element) :
  ((exists rs, parse_path_exclusions policy xml = Ok rs)
   <-> Forall path_payload_ok (path_entries xml))
  /\ (forall rs, parse_path_exclusions policy xml = Ok rs ->
                 List.length rs = List.length (path_entries xml)).
Proof.
  rewrite parse_path_exclusions_entries. split.
  - rewrite map_result_ok_iff. split; intros H;
      (eapply Forall_impl; [|exact H]); intros item; apply path_item_ok_iff.
  - intros rs. apply map_result_length.
Qed.

(** X3: [parse_process_exclusions] returns records iff every entry it
    visits has a text whose fifth field exists, is accepted by [int] and
    has a value that the frame can hold; it then returns as many records as
    there are entries. *)
Theorem parse_process_succeeds_iff (policy : Policy) (xml : ET.Element) :
  ((exists rs, parse_process_exclusions policy xml = Ok rs)
   <-> Forall process_payload_ok (process_entries xml))
  /\ (forall rs, parse_process_exclusions policy xml = Ok rs ->
                 List.length rs = List.length (process_entries xml)).
Proof.
  rewrite parse_process_exclusions_entries. split.
  - rewrite map_result_ok_iff. split; intros H;
      (eapply Forall_impl; [|exact H]); intros item; apply process_entry_ok_iff.
  - intros rs. apply map_result_length.
Qed.

(** X4: when [parse_path_exclusions] raises, the exception is that of the
    first malformed entry in document order: [AttributeError] for an entry
    without text, [IndexError] for a text with fewer than four pipes. *)
Theorem parse_path_exception (policy : Policy) (xml : ET.Element) (e : exn) :
  parse_path_exclusions policy xml = Raise e ->
  exists pre bad post,
    path_entries xml = pre ++ bad :: post
    /\ Forall path_payload_ok pre
    /\ ((e = AttributeError /\ ET.text bad = None)
        \/ (e = IndexError
            /\ exists t, ET.text bad = Some t /\ (count_char "|" t < 4)%nat)).
Proof.
  rewrite parse_path_exclusions_entries. intros H.
  apply map_result_first_failure in H as (pre & bad & post & E & Hpre & Hbad).
  exists pre, bad, post. split; [assumption|]. split.
  - eapply Forall_impl; [|exact Hpre]. intros item. apply path_item_ok_iff.
  - now apply path_item_raise in Hbad.
Qed.

(** X5: when [parse_process_exclusions] raises, the exception is that of
    the first malformed entry in document order: [AttributeError] for an
    entry without text, [IndexError] for a text with fewer than four pipes,
    [ValueError] for a fifth field that [int] refuses, [OverflowError] for
    a flag that the frame cannot hold. *)
Theorem parse_process_exception (policy : Policy) (xml : ET.Element) (e : exn) :
  parse_process_exclusions policy xml = Raise e ->
  exists pre bad post,
    process_entries xml = pre ++ bad :: post
    /\ Forall process_payload_ok pre
    /\ ((e = AttributeError /\ ET.text bad = None)
        \/ (e = IndexError
            /\ exists t, ET.text bad = Some t /\ (count_char "|" t < 4)%nat)
        \/ (e = ValueError
            /\ exists t f4, ET.text bad = Some t
                            /\ nth_error (Py.split "|" t) 4 = Some f4
                            /\ py_int f4 = Raise ValueError)
        \/ (e = OverflowError
            /\ exists t f4 flag, ET.text bad = Some t
                                 /\ nth_error (Py.split "|" t) 4 = Some f4
                                 /\ py_int f4 = Ok flag
                                 /\ py_storable flag = false)).
Proof using Type py_int_raises.
  rewrite parse_process_exclusions_entries. intros H.
  apply map_result_first_failure in H as (pre & bad & post & E & Hpre & Hbad).
  exists pre, bad, post. split; [assumption|]. split.
  - eapply Forall_impl; [|exact Hpre]. intros item. apply process_entry_ok_iff.
  - now apply process_entry_raise in Hbad.
Qed.

(** ** C2: what a malformed entry does *)

Lemma map_result_fails_at {A B : Type} (f : A -> result B)
  (pre post : list A) (bad : A) (e : exn) :
  Forall (fun x => exists y, f x = Ok y) pre -> f bad = Raise e ->
  map_result f (pre ++ bad :: post) = Raise e.
Proof.
  intros Hpre Hbad. induction Hpre as [|x pre [y Hy] _ IH]; simpl.
  - now rewrite Hbad.
  - now rewrite Hy, IH.
Qed.

Lemma process_entry_short (policy : Policy) (item : ET.Element) (t : string) :
  ET.text item = Some t -> (List.length (Py.split "|" t) < 5)%nat ->
  process_entry policy item = Raise IndexError.
Proof.
  intros Ht Hlen. unfold process_entry, process_item, split_text.
  rewrite Ht. cbn [bind]. now rewrite (index_short _ 4) by lia.
Qed.

Lemma process_entry_not_int (policy : Policy) (item : ET.Element)
  (t f4 : string) :
  ET.text item = Some t -> nth_error (Py.split "|" t) 4 = Some f4 ->
  (forall flag, py_int f4 <> Ok flag) ->
  process_entry policy item = Raise ValueError.
Proof using Type py_int_raises.
  intros Ht H4 Hint. unfold process_entry.
  rewrite (process_item_of_payload policy item t f4 Ht H4).
  destruct (py_int f4) as [flag|e] eqn:E; [now destruct (Hint flag)|].
  now rewrite (py_int_raises _ _ E).
Qed.

(** C2, amended: a policy XML with an exclusion entry whose payload has
    fewer than 5 fields (or, for a process entry, whose 5th field [int]
    does not accept) makes the parser raise an exception: no record is
    returned for that policy, the sibling entries included. When the
    entries before it in document order are well-formed, the exception is
    [IndexError] for the short payload and [ValueError] for the flag that
    is not an integer. *)
Theorem malformed_entry_raises (policy : Policy) (xml : ET.Element) :
  (forall pre item post t,
      path_entries xml = pre ++ item :: post ->
      ET.text item = Some t ->
      (List.length (Py.split "|" t) < 5)%nat ->
      (exists e, parse_path_exclusions policy xml = Raise e)
      /\ (Forall path_payload_ok pre ->
          parse_path_exclusions policy xml = Raise IndexError))
  /\ (forall pre item post t,
         process_entries xml = pre ++ item :: post ->
         ET.text item = Some t ->
         ((List.length (Py.split "|" t) < 5)%nat ->
          (exists e, parse_process_exclusions policy xml = Raise e)
          /\ (Forall process_payload_ok pre ->
              parse_process_exclusions policy xml = Raise IndexError))
         /\ (forall f4,
                nth_error (Py.split "|" t) 4 = Some f4 ->
                (forall flag, py_int f4 <> Ok flag) ->
                (exists e, parse_process_exclusions policy xml = Raise e)
                /\ (Forall process_payload_ok pre ->
                    parse_process_exclusions policy xml = Raise ValueError))).
Proof using Type py_int_raises.
  split.
  - intros pre item post t E Ht Hlen.
    pose proof (path_item_short policy item t Ht Hlen) as Hbad.
    rewrite parse_path_exclusions_entries, E. split.
    + eapply map_result_Raise; [|exact Hbad]. apply in_elt.
    + intros Hpre. apply map_result_fails_at; [|exact Hbad].
      eapply Forall_impl; [|exact Hpre]. intros x. apply path_item_ok_iff.
  - intros pre item post t E Ht.
    rewrite parse_process_exclusions_entries, E. split.
    + intros Hlen. pose proof (process_entry_short policy item t Ht Hlen) as Hbad.
      split.
      * eapply map_result_Raise; [|exact Hbad]. apply in_elt.
      * intros Hpre. apply map_result_fails_at; [|exact Hbad].
        eapply Forall_impl; [|exact Hpre]. intros x. apply process_entry_ok_iff.
    + intros f4 H4 Hint.
      pose proof (process_entry_not_int policy item t f4 Ht H4 Hint) as Hbad.
      split.
      * eapply map_result_Raise; [|exact Hbad]. apply in_elt.
      * intros Hpre. apply map_result_fails_at; [|exact Hbad].
        eapply Forall_impl; [|exact Hpre]. intros x. apply process_entry_ok_iff.
Qed.

Lemma parse_path_succeeds_iff_witness :
  exists rs,
    parse_path_exclusions sample_policy
      (two_path_policy "1|2|x|y|C:\foo" "3|4|a|b|*.tmp|more") = Ok rs.
Proof.
  apply (proj2 (proj1 (parse_path_succeeds_iff sample_policy
                         (two_path_policy "1|2|x|y|C:\foo" "3|4|a|b|*.tmp|more")))).
  repeat constructor; eexists; (split; [reflexivity | simpl; lia]).
Defined.

Lemma parse_path_exception_witness :
  exists pre bad post,
    path_entries (two_path_policy "1|2|x|y|C:\foo" "1|2|x") = pre ++ bad :: post
    /\ Forall path_payload_ok pre
    /\ ((IndexError = AttributeError /\ ET.text bad = None)
        \/ (IndexError = IndexError
            /\ exists t, ET.text bad = Some t /\ (count_char "|" t < 4)%nat)).
Proof.
  apply (parse_path_exception sample_policy
           (two_path_policy "1|2|x|y|C:\foo" "1|2|x") IndexError).
  reflexivity.
Defined.

(** ** The fields of a process record *)

(** X6: every record that [parse_process_exclusions] returns carries the
    name and the identifier of the policy and the class ["process"]; its
    version, authentication type, hash and path are the fields 0 to 3 of
    the split payload and its flag is [int] of field 4. *)
Theorem process_record_fields (policy : Policy) (xml : ET.Element)
  (rs : list ProcessExclusion) :
  parse_process_exclusions policy xml = Ok rs ->
  Forall2 (fun item r =>
             exists t f4,
               ET.text item = Some t
               /\ Policy_Name r = name policy
               /\ Policy_GUID r = guid policy
               /\ Polcy_Class r = "process"
               /\ nth_error (Py.split "|" t) 0 = Some (Exclusion_Version r)
               /\ nth_error (Py.split "|" t) 1 = Some (Exclusion_Auth_Type r)
               /\ nth_error (Py.split "|" t) 2 = Some (Exclusion_Hash r)
               /\ nth_error (Py.split "|" t) 3 = Some (Exclusion_Path r)
               /\ nth_error (Py.split "|" t) 4 = Some f4
               /\ py_int f4 = Ok (Exclusion_Flag r))
          (process_entries xml) rs.
Proof.
  rewrite parse_process_exclusions_entries, map_result_Ok. intros H.
  eapply Forall2_impl; [|exact H].
  intros item r Hr. apply process_entry_Ok in Hr as [Hr _].
  apply process_item_Ok in Hr
    as (t & f0 & f1 & f2 & f3 & f4 & e_flag & Ht & H0 & H1 & H2 & H3 & H4 & Hi & ->).
  exists t, f4. simpl. repeat split; assumption.
Qed.

Lemma nth_error_split_no_pipe (t f : string) (i : nat) :
  nth_error (Py.split "|" t) i = Some f -> count_char "|" f = 0%nat.
Proof.
  intros H. eapply split_fields_without_separator, nth_error_In, H.
Qed.

(** X7: no string field of a returned record contains a pipe: the type
    code and the value of a path record, and the version, authentication
    type, hash and path of a process record, end at the next pipe of the
    payload. *)
Theorem record_fields_without_pipe (policy : Policy) (xml : ET.Element) :
  (forall rs r, parse_path_exclusions policy xml = Ok rs -> In r rs ->
                count_char "|" (e_type r) = 0%nat
                /\ count_char "|" (e_value r) = 0%nat)
  /\ (forall rs r, parse_process_exclusions policy xml = Ok rs -> In r rs ->
                   count_char "|" (Exclusion_Version r) = 0%nat
                   /\ count_char "|" (Exclusion_Auth_Type r) = 0%nat
                   /\ count_char "|" (Exclusion_Hash r) = 0%nat
                   /\ count_char "|" (Exclusion_Path r) = 0%nat).
Proof.
  split; intros rs r Hparse Hin.
  - rewrite parse_path_exclusions_entries, map_result_Ok in Hparse.
    destruct (Forall2_In_r _ _ _ _ Hparse Hin) as [item [_ Hr]].
    apply path_item_Ok in Hr as (t & f1 & f4 & _ & H1 & H4 & ->). simpl.
    split; eapply nth_error_split_no_pipe; eassumption.
  - destruct (parsed_process_record _ _ _ _ Hparse Hin) as [item [_ Hr]].
    apply process_item_Ok in Hr
      as (t & f0 & f1 & f2 & f3 & f4 & e_flag & _ & H0 & H1 & H2 & H3 & _ & _ & ->).
    simpl. repeat split; eapply nth_error_split_no_pipe; eassumption.
Qed.

(** ** The flag and its decoded bits *)

Lemma parsed_record_decoded (policy : Policy) (xml : ET.Element)
  (rs : list ProcessExclusion) (r : ProcessExclusion) :
  parse_process_exclusions policy xml = Ok rs -> In r rs -> decoded r.
Proof.
  intros Hparse Hin.
  destruct (parsed_process_record _ _ _ _ Hparse Hin) as [item [_ Hr]].
  apply process_item_Ok in Hr
    as (t & f0 & f1 & f2 & f3 & f4 & e_flag & _ & _ & _ & _ & _ & _ & _ & ->).
  reflexivity.
Qed.

Lemma bits_value_testbits (n : nat) (a : Z) :
  bits_value (map (Z.testbit a) (map Z.of_nat (seq 0 n))) = a mod 2 ^ Z.of_nat n.
Proof.
  revert a; induction n as [|n IH]; intros a.
  - simpl. now rewrite Z.mod_1_r.
  - rewrite <- cons_seq, <- seq_shift. rewrite !map_cons, !map_map.
    cbn [bits_value].
    rewrite (map_ext (fun i => Z.testbit a (Z.of_nat (S i)))
                     (fun i => Z.testbit (a / 2) (Z.of_nat i))).
    2:{ intros i. rewrite Nat2Z.inj_succ.
        symmetry. apply Z.div2_bits. lia. }
    rewrite <- map_map, IH.
    change (Z.of_nat 0) with 0. rewrite Z.bit0_mod.
    rewrite Nat2Z.inj_succ, Z.pow_succ_r by lia.
    rewrite Z.rem_mul_r by lia. reflexivity.
Qed.

Lemma decoded_bits_testbits (r : ProcessExclusion) :
  decoded r ->
  decoded_bits r = map (Z.testbit (Exclusion_Flag r)) (map Z.of_nat (seq 0 8)).
Proof.
  intros ->. simpl. now rewrite !bit_set_testbit by lia.
Qed.

Lemma low_byte_bits (a b : Z) :
  a mod 256 = b mod 256 ->
  map (Z.testbit a) (map Z.of_nat (seq 0 8))
  = map (Z.testbit b) (map Z.of_nat (seq 0 8)).
Proof.
  intros E. rewrite map_map, map_map. apply map_ext_in. intros i Hi.
  apply in_seq in Hi.
  rewrite <- (Z.mod_pow2_bits_low a 8), <- (Z.mod_pow2_bits_low b 8) by lia.
  change (2 ^ 8) with 256. now rewrite E.
Qed.

(** X8: the eight booleans of a parsed record hold the low byte of its
    flag and nothing else: read as binary digits they give [flag mod 256],
    and two parsed records whose flags agree modulo 256 have the same
    booleans. *)
Theorem decoded_bits_low_byte (policy policy' : Policy) (xml xml' : ET.Element)
  (rs rs' : list ProcessExclusion) (r r' : ProcessExclusion) :
  parse_process_exclusions policy xml = Ok rs -> In r rs ->
  parse_process_exclusions policy' xml' = Ok rs' -> In r' rs' ->
  bits_value (decoded_bits r) = Exclusion_Flag r mod 256
  /\ (Exclusion_Flag r mod 256 = Exclusion_Flag r' mod 256 ->
      decoded_bits r = decoded_bits r').
Proof.
  intros Hp Hin Hp' Hin'.
  pose proof (parsed_record_decoded _ _ _ _ Hp Hin) as Hd.
  pose proof (parsed_record_decoded _ _ _ _ Hp' Hin') as Hd'.
  rewrite (decoded_bits_testbits r Hd), (decoded_bits_testbits r' Hd'). split.
  - apply (bits_value_testbits 8).
  - apply low_byte_bits.
Qed.

(** X9: for a parsed record, the flag is in [range(0, 3)] (the test behind
    ['File Scan']) iff the flag is a byte, none of the six protection
    booleans from System Process Protection to Self Protect Child is set,
    and File Scan Child and Scan Files Written are not both set. *)
Theorem file_scan_and_decoded_bits (policy : Policy) (xml : ET.Element)
  (rs : list ProcessExclusion) (r : ProcessExclusion) :
  parse_process_exclusions policy xml = Ok rs -> In r rs ->
  (Py.in_range 0 3 (Exclusion_Flag r) = true
   <-> 0 <= Exclusion_Flag r < 256
       /\ System_Process_Protection r = false
       /\ System_Process_Protection_Child r = false
       /\ Malicious_Activity r = false
       /\ Malicious_Activity_Child r = false
       /\ Self_Protect r = false
       /\ Self_Protect_Child r = false
       /\ File_Scan_Child r && Scan_Files_Written r = false).
Proof.
  intros Hp Hin.
  pose proof (parsed_record_decoded _ _ _ _ Hp Hin) as Hd.
  destruct (decoded_bits_low_byte _ _ _ _ _ _ _ _ Hp Hin Hp Hin) as [Hval _].
  rewrite in_range_spec. split.
  - intros Hr.
    assert (Hf : Exclusion_Flag r = 0 \/ Exclusion_Flag r = 1
                 \/ Exclusion_Flag r = 2) by lia.
    unfold decoded, decoded_bits in Hd.
    destruct Hf as [Hf|[Hf|Hf]]; rewrite Hf in Hd; simpl in Hd;
      injection Hd as -> -> -> -> -> -> -> ->; repeat split; reflexivity || lia.
  - intros (Hb & H2 & H3 & H4 & H5 & H6 & H7 & H01).
    rewrite Z.mod_small in Hval by assumption.
    unfold decoded_bits in Hval. rewrite H2, H3, H4, H5, H6, H7 in Hval.
    destruct (File_Scan_Child r), (Scan_Files_Written r);
      simpl in Hval, H01; try discriminate; lia.
Qed.

(** * Further properties of the report *)

(** ** The order of the rows *)

Lemma name_le_trans (a b c : string) : name_le a b -> name_le b c -> name_le a c.
Proof.
  unfold name_le, String.leb.
  revert b c; induction a as [|x a IH]; intros [|y b] [|z c]; simpl;
    try easy.
  unfold Ascii.compare.
  destruct (N.compare_spec (N_of_ascii x) (N_of_ascii y)) as [Exy|Lxy|Gxy];
    destruct (N.compare_spec (N_of_ascii y) (N_of_ascii z)) as [Eyz|Lyz|Gyz];
    destruct (N.compare_spec (N_of_ascii x) (N_of_ascii z)) as [Exz|Lxz|Gxz];
    try easy; try lia.
  apply IH.
Qed.

Lemma insert_sorted_sorted (k : string) (l : list string) :
  StronglySorted name_le l -> StronglySorted name_le (Pd.insert_sorted k l).
Proof.
  induction 1 as [|x l Hs IH Hx]; simpl.
  - repeat constructor.
  - destruct (String.leb k x) eqn:Hk.
    + constructor; [now constructor|]. constructor; [exact Hk|].
      eapply Forall_impl; [|exact Hx]. intros y. now apply name_le_trans.
    + constructor; [exact IH|].
      apply Forall_forall. intros y Hy.
      apply (Permutation_in y (Permutation_sym (insert_sorted_perm k l))) in Hy.
      destruct Hy as [<-|Hy].
      * destruct (String.leb_total x k) as [H|H]; [exact H|congruence].
      * rewrite Forall_forall in Hx. now apply Hx.
Qed.

Lemma sorted_keys_sorted (l : list string) :
  StronglySorted name_le (Pd.sorted_keys l).
Proof.
  unfold Pd.sorted_keys.
  induction (nodup string_dec l) as [|x l' IH]; simpl; [constructor|].
  now apply insert_sorted_sorted.
Qed.

Lemma sorted_unique (l l' : list string) :
  StronglySorted name_le l -> StronglySorted name_le l' ->
  Permutation l l' -> l = l'.
Proof.
  intros Hs; revert l'; induction Hs as [|a l Hs IH Ha]; intros l' Hs' Hp.
  - now apply Permutation_nil in Hp.
  - destruct Hs' as [|a' l' Hs' Ha'].
    + apply Permutation_sym, Permutation_nil in Hp. discriminate.
    + assert (E : a = a').
      { assert (H1 : In a (a' :: l'))
          by (eapply Permutation_in; [exact Hp | now left]).
        assert (H2 : In a' (a :: l))
          by (eapply Permutation_in; [symmetry; exact Hp | now left]).
        destruct H1 as [H1|H1]; [now symmetry|].
        destruct H2 as [H2|H2]; [assumption|].
        rewrite Forall_forall in Ha, Ha'.
        apply String.leb_antisym; [now apply Ha | now apply Ha']. }
      subst a'. f_equal. apply IH; [assumption|].
      now apply Permutation_cons_inv in Hp.
Qed.

Lemma sorted_keys_perm_eq (l l' : list string) :
  Permutation l l' -> Pd.sorted_keys l = Pd.sorted_keys l'.
Proof.
  intros Hp. apply sorted_unique; try apply sorted_keys_sorted.
  apply NoDup_Permutation; try apply sorted_keys_NoDup.
  intros x. rewrite !sorted_keys_In.
  split; apply Permutation_in; [assumption | now symmetry].
Qed.

(** X10: in both tables of a report the rows are in increasing order of the
    policy name and no policy has two rows. *)
Theorem summary_rows_sorted (st : Store) (rep : Report) :
  snd (exclusion_report st) = Ok rep ->
  StronglySorted name_le (map fst (rows (path_exc rep)))
  /\ NoDup (map fst (rows (path_exc rep)))
  /\ StronglySorted name_le (map fst (rows (pvt_process rep)))
  /\ NoDup (map fst (rows (pvt_process rep))).
Proof.
  intros Hrep.
  apply exclusion_report_Ok in Hrep as (Hpath & _ & _ & Hpvt & _ & _).
  apply path_summary_Ok in Hpath as (_ & _ & _ & Htbl).
  rewrite Htbl, Hpvt. simpl. rewrite !keyed_rows_keys.
  repeat split; apply sorted_keys_sorted || apply sorted_keys_NoDup.
Qed.

Lemma summary_rows_sorted_witness :
  StronglySorted name_le (map fst (rows (path_exc sample_report)))
  /\ NoDup (map fst (rows (path_exc sample_report)))
  /\ StronglySorted name_le (map fst (rows (pvt_process sample_report)))
  /\ NoDup (map fst (rows (pvt_process sample_report))).
Proof.
  apply (summary_rows_sorted sample_store sample_report).
  exact sample_report_eq.
Defined.

(** ** When the report raises *)

Lemma path_summary_conflict (path : list PathExclusion) :
  path <> [] ->
  In margins_name (map p_name path) \/ In margins_name (map e_type path) ->
  path_summary path = Raise ValueError.
Proof.
  intros Hne Hc. unfold path_summary.
  destruct path as [|e0 path0] eqn:E; [contradiction|].
  rewrite <- E in *. clear E e0 path0. unfold Pd.crosstab.
  replace (Pd.has_label margins_name (Pd.sorted_keys (map p_name path))
           || Pd.has_label margins_name (Pd.sorted_keys (map e_type path)))
    with true; [reflexivity|].
  symmetry. apply orb_true_iff.
  destruct Hc as [H|H]; [left|right];
    apply has_label_In; apply sorted_keys_In; exact H.
Qed.

(** X11: [exclusion_report] raises [AttributeError] for a path frame
    without rows, [ValueError] when a policy name or a type code of the
    path frame is ['Total Exclusions'], and [KeyError] when the path
    summary can be built but the process frame has no rows; whenever it
    raises, both frames are left as they were. *)
Theorem exclusion_report_raises (st : Store) :
  (path st = [] -> exclusion_report st = (st, Raise AttributeError))
  /\ (path st <> [] ->
      In margins_name (map p_name (path st))
      \/ In margins_name (map e_type (path st)) ->
      exclusion_report st = (st, Raise ValueError))
  /\ (path st <> [] ->
      ~ In margins_name (map p_name (path st)) ->
      ~ In margins_name (map e_type (path st)) ->
      records (process st) = [] ->
      exclusion_report st = (st, Raise KeyError))
  /\ (forall e, snd (exclusion_report st) = Raise e ->
                fst (exclusion_report st) = st).
Proof.
  split; [|split; [|split]].
  - intros H. unfold exclusion_report. now rewrite H.
  - intros Hne Hc. unfold exclusion_report.
    now rewrite (path_summary_conflict _ Hne Hc).
  - intros Hne Hr Hc Hrs.
    destruct (path_summary_total _ Hne Hr Hc) as [tbl Htbl].
    unfold exclusion_report, assign_File_Scan. now rewrite Htbl, Hrs.
  - intros e. unfold exclusion_report.
    destruct (path_summary (path st)) as [tbl|e1] eqn:Hpath; [|reflexivity].
    destruct (records (process st)) as [|r0 rs0] eqn:Hrs.
    + unfold assign_File_Scan. now rewrite Hrs.
    + assert (Hne : records (process st) <> []) by (rewrite Hrs; discriminate).
      pose proof (exclusion_report_eq st tbl Hpath Hne) as E.
      unfold exclusion_report in E. rewrite Hpath in E. rewrite E.
      simpl. discriminate.
Qed.

Lemma exclusion_report_raises_witness :
  exclusion_report (mkStore [] (mkProcessFrame [flag7_record] None))
  = (mkStore [] (mkProcessFrame [flag7_record] None), Raise AttributeError)
  /\ exclusion_report
       (mkStore [sample_path "Total Exclusions" "2"]
                (mkProcessFrame [flag7_record] None))
     = (mkStore [sample_path "Total Exclusions" "2"]
                (mkProcessFrame [flag7_record] None), Raise ValueError)
  /\ exclusion_report (mkStore [sample_path "A" "2"] (mkProcessFrame [] None))
     = (mkStore [sample_path "A" "2"] (mkProcessFrame [] None), Raise KeyError)
  /\ fst (exclusion_report (mkStore [sample_path "A" "2"] (mkProcessFrame [] None)))
     = mkStore [sample_path "A" "2"] (mkProcessFrame [] None).
Proof.
  split; [|split; [|split]].
  - apply (proj1 (exclusion_report_raises _)). reflexivity.
  - apply (proj1 (proj2 (exclusion_report_raises _))).
    + discriminate.
    + left. simpl. left. reflexivity.
  - apply (proj1 (proj2 (proj2 (exclusion_report_raises _)))).
    + discriminate.
    + simpl. intros [H|[]]. discriminate.
    + simpl. intros [H|[]]. discriminate.
    + reflexivity.
  - apply (proj2 (proj2 (proj2 (exclusion_report_raises _))) KeyError).
    reflexivity.
Defined.

(** ** The cells of the tables *)

(** X12: in the path matrix the i-th column belongs to the i-th type code
    of the path records in increasing order: it carries the label of that
    code and, in the row of a policy, the number of path records with that
    policy name and that type code. *)
Theorem path_matrix_cells (st : Store) (rep : Report) (policy : string)
  (cells : list Z) (i : nat) (code : string) :
  snd (exclusion_report st) = Ok rep ->
  In (policy, cells) (rows (path_exc rep)) ->
  nth_error (Pd.sorted_keys (map e_type (path st))) i = Some code ->
  nth_error (columns (path_exc rep)) i = Some (path_column_names code)
  /\ nth_error cells i = Some (path_type_count (path st) policy code).
Proof.
  intros Hrep Hrow Hcode.
  apply exclusion_report_Ok in Hrep as (Hpath & _).
  apply path_summary_Ok in Hpath as (_ & _ & _ & Htbl).
  rewrite Htbl in *. simpl in *.
  apply keyed_rows_In in Hrow as [_ ->].
  assert (Hi : (i < List.length (Pd.sorted_keys (map e_type (path st))))%nat).
  { apply nth_error_Some. congruence. }
  split.
  - apply map_nth_error. rewrite nth_error_app1 by assumption. exact Hcode.
  - rewrite nth_error_app1 by now rewrite length_map.
    now apply map_nth_error.
Qed.

Lemma path_matrix_cells_witness :
  nth_error (columns (path_exc sample_report)) 1 = Some (path_column_names "2")
  /\ nth_error [0; 2; 1; 3] 1 = Some (path_type_count (path sample_store) "A" "2").
Proof.
  apply (path_matrix_cells sample_store sample_report "A" [0; 2; 1; 3] 1 "2").
  - exact sample_report_eq.
  - vm_compute. left. reflexivity.
  - reflexivity.
Defined.

(** X13: in the row of a policy the process pivot holds, under File Scan
    Child, System Process Protection, System Process Protection Child,
    Malicious Activity and Malicious Activity Child, the number of process
    records of that policy in which the boolean of that name is set. *)
Theorem process_pivot_cells (st : Store) (rep : Report) (policy : string)
  (cells : list Z) :
  snd (exclusion_report st) = Ok rep ->
  In (policy, cells) (rows (pvt_process rep)) ->
  let cell label := Pd.loc (columns (pvt_process rep)) cells label in
  let number col :=
    Pd.count (fun r => String.eqb (Policy_Name r) policy && col r)
             (records (process st)) in
  cell "File Scan Child" = Ok (number File_Scan_Child)
  /\ cell "System Process Protection" = Ok (number System_Process_Protection)
  /\ cell "System Process Protection Child"
     = Ok (number System_Process_Protection_Child)
  /\ cell "Malicious Activity" = Ok (number Malicious_Activity)
  /\ cell "Malicious Activity Child" = Ok (number Malicious_Activity_Child).
Proof.
  intros Hrep Hrow.
  apply exclusion_report_Ok in Hrep as (_ & _ & _ & Hpvt & _ & _).
  rewrite Hpvt in *. simpl in Hrow.
  apply keyed_rows_In in Hrow as [_ ->].
  repeat split; reflexivity.
Qed.

Lemma process_pivot_cells_witness :
  let cell label :=
    Pd.loc (columns (pvt_process sample_report)) [0; 105; 105; 0; 0; 0; 105] label in
  let number col :=
    Pd.count (fun r => String.eqb (Policy_Name r) "B" && col r)
             (records (process sample_store)) in
  cell "File Scan Child" = Ok (number File_Scan_Child)
  /\ cell "System Process Protection" = Ok (number System_Process_Protection)
  /\ cell "System Process Protection Child"
     = Ok (number System_Process_Protection_Child)
  /\ cell "Malicious Activity" = Ok (number Malicious_Activity)
  /\ cell "Malicious Activity Child" = Ok (number Malicious_Activity_Child).
Proof.
  apply (process_pivot_cells sample_store sample_report "B"
           [0; 105; 105; 0; 0; 0; 105]).
  - exact sample_report_eq.
  - vm_compute. right. left. reflexivity.
Defined.

Lemma count_le {A : Type} (p q : A -> bool) (l : list A) :
  (forall x, q x = true -> p x = true) -> Pd.count q l <= Pd.count p l.
Proof.
  intros H. induction l as [|a l IH]; [reflexivity|].
  rewrite !count_cons. specialize (H a).
  destruct (q a), (p a); simpl Z.b2z; try lia;
    try (discriminate H; reflexivity).
Qed.

Lemma count_pos {A : Type} (p : A -> bool) (l : list A) (x : A) :
  In x l -> p x = true -> 1 <= Pd.count p l.
Proof.
  induction l as [|a l IH]; simpl; [tauto|].
  intros [->|Hin] Hp; rewrite count_cons.
  - rewrite Hp. change (Z.b2z true) with 1. unfold Pd.count. lia.
  - specialize (IH Hin Hp). destruct (p a); simpl Z.b2z; lia.
Qed.

(** X14: a row of either table stands for at least one record, and no cell
    of the row is negative or exceeds the row's ['Total Exclusions']. *)
Theorem summary_cells_bounded (st : Store) (rep : Report) (policy : string)
  (cells : list Z) :
  snd (exclusion_report st) = Ok rep ->
  (In (policy, cells) (rows (path_exc rep)) ->
   exists total,
     Pd.loc (columns (path_exc rep)) cells "Total Exclusions" = Ok total
     /\ 1 <= total /\ Forall (fun v => 0 <= v <= total) cells)
  /\ (In (policy, cells) (rows (pvt_process rep)) ->
      exists total,
        Pd.loc (columns (pvt_process rep)) cells "Total Exclusions" = Ok total
        /\ 1 <= total /\ Forall (fun v => 0 <= v <= total) cells).
Proof.
  intros Hrep.
  destruct (proj2 (summary_totals st) rep Hrep) as (_ & Hptot & _ & Hqtot).
  apply exclusion_report_Ok in Hrep as (Hpath & _ & _ & Hpvt & _ & _).
  apply path_summary_Ok in Hpath as (_ & _ & _ & Htbl).
  split; intros Hrow.
  - destruct (Hptot policy cells Hrow) as [Hloc _].
    exists (path_count (path st) policy). split; [exact Hloc|].
    rewrite Htbl in Hrow. simpl in Hrow.
    apply keyed_rows_In in Hrow as [Hkey ->].
    apply (proj1 (sorted_keys_In _ _)) in Hkey.
    apply in_map_iff in Hkey as [e [He Hin]].
    assert (Hpos : 1 <= path_count (path st) policy).
    { eapply count_pos; [exact Hin|]. rewrite He. apply String.eqb_refl. }
    split; [exact Hpos|].
    apply Forall_app. split.
    + apply Forall_forall. intros v Hv.
      apply in_map_iff in Hv as [c [<- _]]. split.
      * unfold path_type_count, Pd.count. lia.
      * apply count_le. intros x Hx. now apply andb_true_iff in Hx.
    + constructor; [lia | constructor].
  - pose proof (Hqtot policy cells Hrow) as Hloc.
    exists (Pd.count (fun r => String.eqb (Policy_Name r) policy)
                     (records (process st))).
    split; [exact Hloc|].
    rewrite Hpvt in Hrow. simpl in Hrow.
    apply keyed_rows_In in Hrow as [Hkey ->].
    apply (proj1 (sorted_keys_In _ _)) in Hkey.
    apply in_map_iff in Hkey as [r [Hr Hin]].
    split.
    + eapply count_pos; [exact Hin|]. rewrite Hr. apply String.eqb_refl.
    + unfold summary_row, process_count.
      repeat constructor;
        (unfold Pd.count; lia)
        || (apply count_le; intros x Hx; now apply andb_true_iff in Hx).
Qed.

Lemma summary_cells_bounded_witness :
  (exists total,
      Pd.loc (columns (path_exc sample_report)) [0; 2; 1; 3] "Total Exclusions"
      = Ok total
      /\ 1 <= total /\ Forall (fun v => 0 <= v <= total) [0; 2; 1; 3])
  /\ (exists total,
         Pd.loc (columns (pvt_process sample_report)) [95; 0; 0; 0; 0; 0; 95]
                "Total Exclusions" = Ok total
         /\ 1 <= total
         /\ Forall (fun v => 0 <= v <= total) [95; 0; 0; 0; 0; 0; 95]).
Proof.
  split.
  - apply (proj1 (summary_cells_bounded sample_store sample_report "A"
                    [0; 2; 1; 3] sample_report_eq)).
    vm_compute. left. reflexivity.
  - apply (proj2 (summary_cells_bounded sample_store sample_report "A"
                    [95; 0; 0; 0; 0; 0; 95] sample_report_eq)).
    vm_compute. left. reflexivity.
Defined.

(** ** Grand totals *)

Lemma key_counts_add_up {A : Type} (f : A -> string) (keys : list string)
  (l : list A) :
  NoDup keys ->
  (forall x, In x l -> In (f x) keys) ->
  row_sum (map (fun k => Pd.count (fun x => String.eqb (f x) k) l) keys)
  = Z.of_nat (List.length l).
Proof.
  intros Hnd. induction l as [|a l IH]; intros Hall.
  - simpl. apply row_sum_zero.
  - simpl List.length. rewrite Nat2Z.inj_succ, <- Z.add_1_l.
    rewrite <- IH by (intros; apply Hall; now right).
    change 1 with (Z.b2z true).
    rewrite <- (row_sum_indicator true (f a) keys)
      by (assumption || apply Hall; now left).
    rewrite <- row_sum_add. f_equal. apply map_ext. intros k.
    now rewrite count_cons.
Qed.

Lemma totals_of_keyed_rows (cols : list string) (keys : list string)
  (cells : string -> list Z) (total : string -> Z) (totals : list Z) :
  (forall k, Pd.loc cols (cells k) "Total Exclusions" = Ok (total k)) ->
  Forall2 (fun row t => Pd.loc cols (snd row) "Total Exclusions" = Ok t)
          (keyed_rows keys cells) totals ->
  totals = map total keys.
Proof.
  intros Hloc. revert totals. induction keys as [|k keys IH]; intros totals H;
    inversion H as [|? t ? ts Ht Hts]; subst; [reflexivity|].
  simpl in Ht. rewrite Hloc in Ht. injection Ht as <-.
  simpl. f_equal. now apply IH.
Qed.

(** X15: the ['Total Exclusions'] cells of the path matrix add up to the
    number of path records, and those of the process pivot to the number of
    process records: every record is counted in exactly one row. *)
Theorem summary_grand_totals (st : Store) (rep : Report) (totals : list Z) :
  snd (exclusion_report st) = Ok rep ->
  (Forall2 (fun row t => Pd.loc (columns (path_exc rep)) (snd row)
                                "Total Exclusions" = Ok t)
           (rows (path_exc rep)) totals ->
   row_sum totals = Z.of_nat (List.length (path st)))
  /\ (Forall2 (fun row t => Pd.loc (columns (pvt_process rep)) (snd row)
                                   "Total Exclusions" = Ok t)
              (rows (pvt_process rep)) totals ->
      row_sum totals = Z.of_nat (List.length (records (process st)))).
Proof.
  intros Hrep.
  apply exclusion_report_Ok in Hrep as (Hpath & _ & _ & Hpvt & _ & _).
  apply path_summary_Ok in Hpath as (_ & _ & Hc & Htbl).
  split; intros H.
  - rewrite Htbl in H. simpl rows in H. simpl columns in H.
    apply (totals_of_keyed_rows _ _ _ (path_count (path st))) in H.
    + subst totals. unfold path_count.
      apply key_counts_add_up; [apply sorted_keys_NoDup|].
      intros x Hx. apply sorted_keys_In. now apply in_map.
    + intros k. rewrite map_app. simpl. apply loc_last.
      * intros Hin. apply in_map_iff in Hin as [c [E Hin]].
        apply path_column_names_margin in E. subst c.
        apply Hc. now apply (proj1 (sorted_keys_In _ _)).
      * now rewrite !length_map.
  - rewrite Hpvt in H. simpl rows in H. simpl columns in H.
    apply (totals_of_keyed_rows _ _ _
             (fun k => process_count (records (process st)) k (fun _ => true)))
      in H; [|intros k; reflexivity].
    subst totals.
    rewrite (map_ext _ (fun k => Pd.count
                                   (fun r => String.eqb (Policy_Name r) k)
                                   (records (process st))))
      by (intros; apply process_count_all).
    apply key_counts_add_up; [apply sorted_keys_NoDup|].
    intros x Hx. apply sorted_keys_In. now apply in_map.
Qed.

Lemma summary_grand_totals_witness :
  row_sum [3; 1] = Z.of_nat (List.length (path sample_store))
  /\ row_sum [95; 105; 50]
     = Z.of_nat (List.length (records (process sample_store))).
Proof.
  split.
  - apply (proj1 (summary_grand_totals sample_store sample_report [3; 1]
                    sample_report_eq)).
    vm_compute. repeat constructor.
  - apply (proj2 (summary_grand_totals sample_store sample_report [95; 105; 50]
                    sample_report_eq)).
    vm_compute. repeat constructor.
Defined.

(** ** The table that is printed *)

(** X16: the process table that is printed has the columns FS, SPP, MA and
    Total Exclusions and, row by row, the File Scan, System Process
    Protection, Malicious Activity and Total Exclusions cells of the pivot
    that is written to the file. *)
Theorem display_table (st : Store) (rep : Report) :
  snd (exclusion_report st) = Ok rep ->
  columns (pvt_display rep) = ["FS"; "SPP"; "MA"; "Total Exclusions"]
  /\ Forall2 (fun full shown =>
                fst shown = fst full
                /\ exists fs spp ma total,
                     snd shown = [fs; spp; ma; total]
                     /\ Pd.loc (columns (pvt_process rep)) (snd full)
                               "File Scan" = Ok fs
                     /\ Pd.loc (columns (pvt_process rep)) (snd full)
                               "System Process Protection" = Ok spp
                     /\ Pd.loc (columns (pvt_process rep)) (snd full)
                               "Malicious Activity" = Ok ma
                     /\ Pd.loc (columns (pvt_process rep)) (snd full)
                               "Total Exclusions" = Ok total)
             (rows (pvt_process rep)) (rows (pvt_display rep)).
Proof.
  intros Hrep.
  destruct (path_summary (path st)) as [tbl|e] eqn:Hpath.
  2:{ unfold exclusion_report in Hrep. rewrite Hpath in Hrep. discriminate. }
  destruct (exclusion_report_Ok st rep Hrep) as (_ & Hrs & _).
  rewrite (exclusion_report_eq st tbl Hpath Hrs) in Hrep.
  simpl in Hrep. injection Hrep as <-. simpl. split; [reflexivity|].
  unfold keyed_rows.
  induction (Pd.sorted_keys (map Policy_Name (records (process st))))
    as [|k keys IH]; simpl; constructor; [|exact IH].
  simpl. split; [reflexivity|].
  repeat eexists.
Qed.

Lemma display_table_witness :
  columns (pvt_display sample_report) = ["FS"; "SPP"; "MA"; "Total Exclusions"]
  /\ Forall2 (fun full shown =>
                fst shown = fst full
                /\ exists fs spp ma total,
                     snd shown = [fs; spp; ma; total]
                     /\ Pd.loc (columns (pvt_process sample_report)) (snd full)
                               "File Scan" = Ok fs
                     /\ Pd.loc (columns (pvt_process sample_report)) (snd full)
                               "System Process Protection" = Ok spp
                     /\ Pd.loc (columns (pvt_process sample_report)) (snd full)
                               "Malicious Activity" = Ok ma
                     /\ Pd.loc (columns (pvt_process sample_report)) (snd full)
                               "Total Exclusions" = Ok total)
             (rows (pvt_process sample_report))
             (rows (pvt_display sample_report)).
Proof.
  apply (display_table sample_store sample_report).
  exact sample_report_eq.
Defined.

(** ** The order of the records *)

Lemma count_perm {A : Type} (p : A -> bool) (l l' : list A) :
  Permutation l l' -> Pd.count p l = Pd.count p l'.
Proof.
  intros H. unfold Pd.count. f_equal.
  induction H; simpl; try destruct (p x); try destruct (p y); simpl; lia.
Qed.

Lemma crosstab_perm (path path' : list PathExclusion) (m : string) :
  Permutation path path' ->
  Pd.crosstab (map p_name path) (map e_type path) m
  = Pd.crosstab (map p_name path') (map e_type path') m.
Proof.
  intros Hp. unfold Pd.crosstab.
  rewrite (sorted_keys_perm_eq (map p_name path) (map p_name path'))
    by now apply Permutation_map.
  rewrite (sorted_keys_perm_eq (map e_type path) (map e_type path'))
    by now apply Permutation_map.
  destruct (Pd.has_label m (Pd.sorted_keys (map p_name path'))
            || Pd.has_label m (Pd.sorted_keys (map e_type path')));
    [reflexivity|].
  do 2 f_equal. f_equal.
  - apply map_ext. intros r. do 2 f_equal.
    + apply map_ext. intros c. rewrite !count_combine. now apply count_perm.
    + f_equal. rewrite !count_combine. now apply count_perm.
  - do 3 f_equal.
    + apply map_ext. intros c. rewrite !count_combine. now apply count_perm.
    + f_equal. rewrite !count_combine. now apply count_perm.
Qed.

Lemma path_summary_perm (path path' : list PathExclusion) :
  Permutation path path' -> path_summary path = path_summary path'.
Proof.
  intros Hp. unfold path_summary.
  destruct path as [|e0 p0] eqn:E.
  - apply Permutation_nil in Hp. now subst.
  - destruct path' as [|e1 p1] eqn:E'.
    + apply Permutation_sym, Permutation_nil in Hp. discriminate.
    + rewrite <- E, <- E' in *. now rewrite (crosstab_perm path path' _ Hp).
Qed.

Lemma process_tables_perm (rs rs' : list ProcessExclusion) :
  Permutation rs rs' ->
  process_summary rs = process_summary rs'
  /\ process_display rs = process_display rs'
  /\ (forall test, flagged test rs = flagged test rs').
Proof.
  intros Hp.
  assert (Hk : Pd.sorted_keys (map Policy_Name rs)
               = Pd.sorted_keys (map Policy_Name rs'))
    by now apply sorted_keys_perm_eq, Permutation_map.
  assert (Hc : forall k col, process_count rs k col = process_count rs' k col)
    by (intros; now apply count_perm).
  unfold process_summary, process_display, flagged, keyed_rows.
  rewrite Hk. repeat split.
  - f_equal. apply map_ext. intros k. unfold summary_row. now rewrite !Hc.
  - f_equal. apply map_ext. intros k. unfold display_row. now rewrite !Hc.
  - intros test.
    rewrite (filter_ext _ (fun k => test (process_count rs' k (fun _ => true))))
      by (intros; now rewrite Hc).
    apply map_ext. intros k. now rewrite Hc.
Qed.

(** X17: what [exclusion_report] reports (the tables and the advisory
    lists, or the exception) does not depend on the order of the rows of
    the two frames. *)
Theorem exclusion_report_order (st st' : Store) :
  Permutation (path st) (path st') ->
  Permutation (records (process st)) (records (process st')) ->
  snd (exclusion_report st) = snd (exclusion_report st').
Proof.
  intros Hp Hq.
  pose proof (path_summary_perm _ _ Hp) as Hsum.
  destruct (path_summary (path st)) as [tbl|e] eqn:Hpath.
  - symmetry in Hsum.
    destruct (records (process st)) as [|r0 rs0] eqn:Hrs.
    + apply Permutation_nil in Hq.
      unfold exclusion_report, assign_File_Scan.
      now rewrite Hpath, Hsum, Hrs, Hq.
    + assert (Hne : records (process st) <> []) by (rewrite Hrs; discriminate).
      assert (Hne' : records (process st') <> []).
      { intros E. rewrite E in Hq.
        apply Permutation_sym, Permutation_nil in Hq. discriminate. }
      rewrite <- Hrs in Hq.
      rewrite (exclusion_report_eq st tbl Hpath Hne).
      rewrite (exclusion_report_eq st' tbl Hsum Hne').
      destruct (process_tables_perm _ _ Hq) as (H1 & H2 & H3).
      simpl. now rewrite H1, H2, !H3.
  - unfold exclusion_report. now rewrite Hpath, <- Hsum.
Qed.

Lemma exclusion_report_order_witness :
  snd (exclusion_report
         (mkStore [sample_path "A" "2"; sample_path "B" "1"]
                  (mkProcessFrame [sample_process "A" 2; sample_process "B" 7]
                                  None)))
  = snd (exclusion_report
           (mkStore [sample_path "B" "1"; sample_path "A" "2"]
                    (mkProcessFrame [sample_process "B" 7; sample_process "A" 2]
                                    None))).
Proof.
  apply exclusion_report_order; simpl; apply perm_swap.
Defined.

(** * The run *)

(** What [main] does with one fetched policy. *)
Lemma collect_step (completed : list (Policy * ET.Element))
  (acc : list PathExclusion * list ProcessExclusion) :
  for_each completed
    (fun fetched dfs =>
       let* p_paths := parse_path_exclusions (fst fetched) (snd fetched) in
       let* p_processes := parse_process_exclusions (fst fetched) (snd fetched) in
       Ok (fst dfs ++ p_paths, snd dfs ++ p_processes)) acc
  = let* parsed :=
      map_result (fun fetched =>
                    let* p_paths :=
                      parse_path_exclusions (fst fetched) (snd fetched) in
                    let* p_processes :=
                      parse_process_exclusions (fst fetched) (snd fetched) in
                    Ok (p_paths, p_processes)) completed in
    Ok (fst acc ++ List.concat (map fst parsed),
        snd acc ++ List.concat (map snd parsed)).
Proof.
  revert acc; induction completed as [|f completed IH]; intros acc; simpl.
  - rewrite !app_nil_r. now destruct acc.
  - destruct (parse_path_exclusions (fst f) (snd f)) as [ps|e]; simpl;
      [|reflexivity].
    destruct (parse_process_exclusions (fst f) (snd f)) as [qs|e]; simpl;
      [|reflexivity].
    rewrite IH. simpl.
    destruct (map_result _ completed); simpl; [|reflexivity].
    now rewrite <- !app_assoc.
Qed.

Lemma collect_eq (completed : list (Policy * ET.Element)) :
  collect completed
  = let* parsed := map_result parse_policy completed in
    Ok (List.concat (map fst parsed), List.concat (map snd parsed)).
Proof. unfold collect. now rewrite collect_step. Qed.

Lemma parse_policy_Ok (fetched : Policy * ET.Element)
  (ps : list PathExclusion) (qs : list ProcessExclusion) :
  parse_policy fetched = Ok (ps, qs)
  <-> parse_path_exclusions (fst fetched) (snd fetched) = Ok ps
      /\ parse_process_exclusions (fst fetched) (snd fetched) = Ok qs.
Proof.
  unfold parse_policy.
  destruct (parse_path_exclusions _ _) as [ps'|e]; simpl.
  - destruct (parse_process_exclusions _ _) as [qs'|e]; simpl.
    + split; [intros H; injection H as -> ->; auto|].
      intros [H1 H2]. injection H1 as ->. injection H2 as ->. reflexivity.
    + split; [discriminate | intros [_ H]; discriminate].
  - split; [discriminate | intros [H _]; discriminate].
Qed.

Lemma in_concat_parsed {A B : Type} (f : A -> result B) (l : list A)
  (ys : list B) (y : B) :
  map_result f l = Ok ys -> In y ys -> exists x, In x l /\ f x = Ok y.
Proof.
  rewrite map_result_Ok. apply Forall2_In_r.
Qed.

(** X18: when the collection loop of [main] completes, every record of the
    two collected frames carries the name and the identifier of one of the
    fetched policies and the class of its kind, and the frames hold one
    record for every entry of every policy. *)
Theorem collected_frames (completed : list (Policy * ET.Element))
  (paths : list PathExclusion) (procs : list ProcessExclusion) :
  collect completed = Ok (paths, procs) ->
  (forall r, In r paths ->
             exists policy xml,
               In (policy, xml) completed
               /\ p_name r = name policy /\ p_guid r = guid policy
               /\ e_class r = "path")
  /\ (forall r, In r procs ->
                exists policy xml,
                  In (policy, xml) completed
                  /\ Policy_Name r = name policy /\ Policy_GUID r = guid policy
                  /\ Polcy_Class r = "process")
  /\ List.length paths
     = List.length (flat_map (fun f => path_entries (snd f)) completed)
  /\ List.length procs
     = List.length (flat_map (fun f => process_entries (snd f)) completed).
Proof.
  rewrite collect_eq.
  destruct (map_result parse_policy completed) as [parsed|e] eqn:Hparsed;
    simpl; [|discriminate].
  intros H; injection H as <- <-.
  split; [|split; [|split]].
  - intros r Hr. apply in_concat in Hr as [ps [Hps Hr]].
    apply in_map_iff in Hps as [[ps' qs] [E Hin]]. simpl in E; subst ps'.
    destruct (in_concat_parsed _ _ _ _ Hparsed Hin) as [[policy xml] [Hf Hp]].
    apply parse_policy_Ok in Hp as [Hp _]. simpl in Hp.
    rewrite parse_path_exclusions_entries, map_result_Ok in Hp.
    destruct (Forall2_In_r _ _ _ _ Hp Hr) as [item [_ Hitem]].
    apply path_item_Ok in Hitem as (t & f1 & f4 & _ & _ & _ & ->).
    exists policy, xml. simpl. auto.
  - intros r Hr. apply in_concat in Hr as [qs [Hqs Hr]].
    apply in_map_iff in Hqs as [[ps qs'] [E Hin]]. simpl in E; subst qs'.
    destruct (in_concat_parsed _ _ _ _ Hparsed Hin) as [[policy xml] [Hf Hp]].
    apply parse_policy_Ok in Hp as [_ Hp]. simpl in Hp.
    destruct (parsed_process_record _ _ _ _ Hp Hr) as [item [_ Hitem]].
    apply process_item_Ok in Hitem
      as (t & f0 & f1 & f2 & f3 & f4 & fl & _ & _ & _ & _ & _ & _ & _ & ->).
    exists policy, xml. simpl. auto.
  - apply map_result_Ok in Hparsed.
    induction Hparsed as [|f [ps qs] l l' Hf _ IH]; [reflexivity|].
    apply parse_policy_Ok in Hf as [Hp _].
    simpl. rewrite !length_app, IH. f_equal.
    exact (proj2 (parse_path_succeeds_iff (fst f) (snd f)) ps Hp).
  - apply map_result_Ok in Hparsed.
    induction Hparsed as [|f [ps qs] l l' Hf _ IH]; [reflexivity|].
    apply parse_policy_Ok in Hf as [_ Hq].
    simpl. rewrite !length_app, IH. f_equal.
    exact (proj2 (parse_process_succeeds_iff (fst f) (snd f)) qs Hq).
Qed.

Lemma not_Forall_Exists {A : Type} (P : A -> Prop) (l : list A) :
  Exists (fun x => ~ P x) l -> ~ Forall P l.
Proof.
  induction 1 as [x l Hx|x l _ IH]; intros H; inversion H; subst; auto.
Qed.

Lemma parse_policy_raise (fetched : Policy * ET.Element) (e : exn) :
  parse_policy fetched = Raise e ->
  e = AttributeError \/ e = IndexError \/ e = ValueError
  \/ e = OverflowError.
Proof using Type py_int_raises.
  unfold parse_policy.
  destruct (parse_path_exclusions (fst fetched) (snd fetched)) as [ps|e1] eqn:Hp;
    simpl.
  - destruct (parse_process_exclusions (fst fetched) (snd fetched))
      as [qs|e2] eqn:Hq; simpl; [discriminate|].
    intros H; injection H as E. subst e2.
    apply parse_process_exception in Hq as (pre & bad & post & _ & _ & Hq).
    destruct Hq as [[E _]|[[E _]|[[E _]|[E _]]]]; auto.
  - intros H; injection H as E. subst e1.
    apply parse_path_exception in Hp as (pre & bad & post & _ & _ & Hp).
    destruct Hp as [[E _]|[E _]]; auto.
Qed.

(** X19: one malformed entry in one fetched policy ends the whole run:
    [main] raises the exception of a parser ([AttributeError], [IndexError],
    [ValueError] or [OverflowError]) and reports nothing, whatever the
    other policies hold. *)
Theorem main_aborts_on_malformed_entry (completed : list (Policy * ET.Element))
  (fetched : Policy * ET.Element) :
  In fetched completed ->
  Exists (fun item => ~ path_payload_ok item) (path_entries (snd fetched))
  \/ Exists (fun item => ~ process_payload_ok item)
            (process_entries (snd fetched)) ->
  exists e,
    main completed = Raise e
    /\ (e = AttributeError \/ e = IndexError \/ e = ValueError
        \/ e = OverflowError).
Proof using Type py_int_raises.
  intros Hin Hbad.
  assert (Hf : exists e0, parse_policy fetched = Raise e0).
  { destruct (parse_policy fetched) as [[ps qs]|e0] eqn:E; [|eauto].
    apply parse_policy_Ok in E as [Hp Hq]. exfalso.
    destruct Hbad as [Hbad|Hbad]; apply not_Forall_Exists in Hbad; apply Hbad.
    - apply (proj1 (parse_path_succeeds_iff (fst fetched) (snd fetched))). eauto.
    - apply (proj1 (parse_process_succeeds_iff (fst fetched) (snd fetched))).
      eauto. }
  destruct Hf as [e0 He0].
  destruct (map_result_Raise parse_policy completed fetched e0 Hin He0)
    as [e He].
  exists e. split.
  - unfold main. rewrite collect_eq, He. reflexivity.
  - apply map_result_first_failure in He as (pre & bad & post & _ & _ & Hb).
    now apply parse_policy_raise in Hb.
Qed.

(** X20: a run whose policies hold no path entry at all, and only
    well-formed process entries, ends with [AttributeError], and a run that
    collects path records but no process record ends with [KeyError]:
    [main] reports only when it has collected records of both kinds. *)
Theorem main_needs_both_kinds (completed : list (Policy * ET.Element)) :
  (Forall (fun f => path_entries (snd f) = []
                    /\ Forall process_payload_ok (process_entries (snd f)))
          completed ->
   main completed = Raise AttributeError)
  /\ (forall paths,
         collect completed = Ok (paths, []) ->
         paths <> [] ->
         ~ In margins_name (map p_name paths) ->
         ~ In margins_name (map e_type paths) ->
         main completed = Raise KeyError).
Proof.
  split.
  - intros Hall.
    assert (H : exists parsed,
               map_result parse_policy completed = Ok parsed
               /\ List.concat (map fst parsed) = []).
    { induction Hall as [|f l [Hp Hq] _ IH]; [now exists []|].
      destruct IH as (parsed & Hparsed & Hnil).
      apply (proj1 (parse_process_succeeds_iff (fst f) (snd f))) in Hq
        as [qs Hq].
      assert (Hps : parse_path_exclusions (fst f) (snd f) = Ok []).
      { rewrite parse_path_exclusions_entries, Hp. reflexivity. }
      exists (([], qs) :: parsed). split.
      - simpl. rewrite (proj2 (parse_policy_Ok f [] qs) (conj Hps Hq)).
        simpl. now rewrite Hparsed.
      - simpl. exact Hnil. }
    destruct H as (parsed & Hparsed & Hnil).
    unfold main. rewrite collect_eq, Hparsed. simpl. rewrite Hnil.
    reflexivity.
  - intros paths Hc Hne Hr Ht. unfold main. rewrite Hc. simpl.
    rewrite (proj1 (proj2 (proj2 (exclusion_report_raises _)))); auto.
Qed.

Lemma map_result_perm {A B : Type} (f : A -> result B) (l l' : list A) :
  Permutation l l' ->
  forall ys, map_result f l = Ok ys ->
             exists ys', map_result f l' = Ok ys' /\ Permutation ys ys'.
Proof.
  induction 1 as [|x l l' Hp IH|x y l|l l' l'' Hp1 IH1 Hp2 IH2]; intros ys; simpl.
  - intros H; injection H as <-. exists []. auto.
  - destruct (f x) as [b|e]; simpl; [|discriminate].
    destruct (map_result f l) as [bs|e]; simpl; [|discriminate].
    intros H; injection H as <-.
    destruct (IH bs eq_refl) as [bs' [-> Hbs]]. simpl. eauto.
  - destruct (f y) as [b|e]; simpl; [|discriminate].
    destruct (f x) as [c|e]; simpl; [|discriminate].
    destruct (map_result f l) as [bs|e]; simpl; [|discriminate].
    intros H; injection H as <-. eexists. split; [reflexivity|apply perm_swap].
  - intros H. destruct (IH1 ys H) as [ys1 [H1 P1]].
    destruct (IH2 ys1 H1) as [ys2 [H2 P2]].
    exists ys2. split; [assumption|]. now transitivity ys1.
Qed.

Lemma concat_perm {A : Type} (l l' : list (list A)) :
  Permutation l l' -> Permutation (List.concat l) (List.concat l').
Proof.
  induction 1; simpl.
  - reflexivity.
  - now apply Permutation_app_head.
  - rewrite !app_assoc. apply Permutation_app_tail, Permutation_app_comm.
  - etransitivity; eassumption.
Qed.

(** X21: the report of a run that completes does not depend on the order
    in which the downloads of the policies complete: the same policies in
    another order give the same tables and advisory lists. *)
Theorem main_completion_order (completed completed' : list (Policy * ET.Element))
  (rep : Report) :
  Permutation completed completed' ->
  main completed = Ok rep -> main completed' = Ok rep.
Proof.
  intros Hp. unfold main. rewrite !collect_eq.
  destruct (map_result parse_policy completed) as [parsed|e] eqn:Hparsed;
    simpl; [|discriminate].
  destruct (map_result_perm _ _ _ Hp parsed Hparsed) as [parsed' [-> Hperm]].
  simpl. intros <-. symmetry.
  apply exclusion_report_order; simpl;
    apply concat_perm, Permutation_map, Hperm.
Qed.

(** * The log record of a response *)

(** X22: [HttpResp.status] logs at level DEBUG exactly for the status codes
    200 to 299 and at level ERROR for every other code. *)
Theorem status_level (status_code : Z) (reason query : string) :
  (fst (HttpResp.status status_code reason query) = HttpResp.DEBUG
   <-> 200 <= status_code <= 299)
  /\ (fst (HttpResp.status status_code reason query) = HttpResp.ERROR
      <-> status_code < 200 \/ 299 < status_code).
Proof.
  unfold HttpResp.status.
  pose proof (Z.div_mod status_code 100) as Hdm.
  pose proof (Z.mod_pos_bound status_code 100) as Hb.
  destruct (Z.eqb_spec (status_code / 100) 2) as [E|E]; simpl;
    (split; split; intros H; try discriminate; try reflexivity; try lia).
Qed.

Lemma status_level_witness :
  fst (HttpResp.status 204 "No Content" "policy") = HttpResp.DEBUG
  /\ fst (HttpResp.status 404 "Not Found" "policy") = HttpResp.ERROR.
Proof.
  split.
  - apply (proj1 (status_level 204 "No Content" "policy")). lia.
  - apply (proj2 (status_level 404 "Not Found" "policy")). lia.
Defined.

(** * The entries of a document, element by element *)

Lemma filter_flat_map {A B : Type} (p : B -> bool) (g : A -> list B)
  (l : list A) :
  filter p (flat_map g l) = flat_map (fun x => filter p (g x)) l.
Proof.
  induction l as [|a l IH]; simpl; [reflexivity|].
  now rewrite filter_app, IH.
Qed.

Lemma flat_map_flat_map {A B C : Type} (f : B -> list C) (g : A -> list B)
  (l : list A) :
  flat_map f (flat_map g l) = flat_map (fun x => flat_map f (g x)) l.
Proof.
  induction l as [|a l IH]; simpl; [reflexivity|].
  now rewrite flat_map_app, IH.
Qed.

Lemma iter_unfold (t tg : string) (txt : option string)
  (cs : list ET.Element) :
  ET.iter t (ET.Elem tg txt cs)
  = (if String.eqb tg t then [ET.Elem tg txt cs] else [])
    ++ flat_map (ET.iter t) cs.
Proof.
  unfold ET.iter at 1. simpl.
  rewrite filter_flat_map. fold (ET.iter t).
  now destruct (String.eqb tg t).
Qed.

(** X23: the entries that a parser visits in a document are those it
    visits in the documents of the root's children, preceded, when the root
    is itself an [exclusions] element, by the children of every [info]
    (for paths) or [process] (for processes) element of the document; an
    entry below two nested [exclusions] elements is thus visited once for
    each of them. *)
Theorem entries_by_element (tg : string) (txt : option string)
  (cs : list ET.Element) :
  path_entries (ET.Elem tg txt cs)
  = (if String.eqb tg ns_exclusions
     then flat_map ET.children (ET.iter ns_info (ET.Elem tg txt cs))
     else [])
    ++ flat_map path_entries cs
  /\ process_entries (ET.Elem tg txt cs)
     = (if String.eqb tg ns_exclusions
        then flat_map ET.children (ET.iter ns_process (ET.Elem tg txt cs))
        else [])
       ++ flat_map process_entries cs.
Proof.
  unfold path_entries, process_entries.
  rewrite iter_unfold, !flat_map_app, !flat_map_flat_map.
  split; destruct (String.eqb tg ns_exclusions); simpl;
    now rewrite ?app_nil_r.
Qed.

(** * From the payloads to the pivot *)

Lemma count_ext_in {A : Type} (p q : A -> bool) (l : list A) :
  (forall x, In x l -> p x = q x) -> Pd.count p l = Pd.count q l.
Proof.
  intros H. induction l as [|a l IH]; [reflexivity|].
  rewrite !count_cons, (H a) by now left.
  rewrite IH; [reflexivity|]. intros x Hx. apply H. now right.
Qed.

Lemma collected_records_decoded (completed : list (Policy * ET.Element))
  (paths : list PathExclusion) (procs : list ProcessExclusion) :
  collect completed = Ok (paths, procs) -> forall r, In r procs -> decoded r.
Proof.
  rewrite collect_eq.
  destruct (map_result parse_policy completed) as [parsed|e] eqn:Hparsed;
    simpl; [|discriminate].
  intros H; injection H as <- <-. intros r Hr.
  apply in_concat in Hr as [qs [Hqs Hr]].
  apply in_map_iff in Hqs as [[ps qs'] [E Hin]]. simpl in E; subst qs'.
  destruct (in_concat_parsed _ _ _ _ Hparsed Hin) as [[policy xml] [Hf Hp]].
  apply parse_policy_Ok in Hp as [_ Hp].
  exact (parsed_record_decoded _ _ _ _ Hp Hr).
Qed.

(** X24: in the pivot of a completed run the cells of a policy count the
    collected process records of that policy by the bits of the raw flag:
    File Scan Child those with bit 0, System Process Protection bit 2, its
    child variant bit 3, Malicious Activity bit 4 and its child variant
    bit 5; Scan Files Written, Self Protect and Self Protect Child are
    decoded but never counted. *)
Theorem run_pivot_counts_flag_bits (completed : list (Policy * ET.Element))
  (paths : list PathExclusion) (procs : list ProcessExclusion) (rep : Report)
  (policy : string) (cells : list Z) :
  collect completed = Ok (paths, procs) ->
  main completed = Ok rep ->
  In (policy, cells) (rows (pvt_process rep)) ->
  let cell label := Pd.loc (columns (pvt_process rep)) cells label in
  let with_bit i :=
    Pd.count (fun r => String.eqb (Policy_Name r) policy
                       && Z.testbit (Exclusion_Flag r) i) procs in
  cell "File Scan Child" = Ok (with_bit 0)
  /\ cell "System Process Protection" = Ok (with_bit 2)
  /\ cell "System Process Protection Child" = Ok (with_bit 3)
  /\ cell "Malicious Activity" = Ok (with_bit 4)
  /\ cell "Malicious Activity Child" = Ok (with_bit 5)
  /\ columns (pvt_process rep) = summary_columns.
Proof.
  intros Hc Hmain Hrow.
  pose proof (collected_records_decoded _ _ _ Hc) as Hdec.
  unfold main in Hmain. rewrite Hc in Hmain. simpl in Hmain.
  pose proof (process_pivot_cells _ _ _ _ Hmain Hrow) as Hcells.
  apply exclusion_report_Ok in Hmain as (_ & _ & _ & Hpvt & _ & _).
  cbv beta zeta in Hcells. simpl records in Hcells.
  destruct Hcells as (H0 & H2 & H3 & H4 & H5).
  assert (Hbit : forall r, In r procs ->
            File_Scan_Child r = Z.testbit (Exclusion_Flag r) 0
            /\ System_Process_Protection r = Z.testbit (Exclusion_Flag r) 2
            /\ System_Process_Protection_Child r = Z.testbit (Exclusion_Flag r) 3
            /\ Malicious_Activity r = Z.testbit (Exclusion_Flag r) 4
            /\ Malicious_Activity_Child r = Z.testbit (Exclusion_Flag r) 5).
  { intros r Hr. specialize (Hdec r Hr). unfold decoded, decoded_bits in Hdec.
    simpl in Hdec. injection Hdec as E0 _ E2 E3 E4 E5 _ _.
    rewrite E0, E2, E3, E4, E5. rewrite !bit_set_testbit by lia. auto. }
  cbv beta zeta. rewrite H0, H2, H3, H4, H5.
  repeat split; try (f_equal; apply count_ext_in; intros r Hr;
                     destruct (Hbit r Hr) as (B0 & B2 & B3 & B4 & B5);
                     congruence).
  now rewrite Hpvt.
Qed.

End Runtime.

(** * The sample payloads *)

(** The theorems above hold for every [int] that raises nothing but
    [ValueError] and for every set of flags that a frame holds. They are
    run below on the sample payloads, with [Py.int] and with the integers
    that have a finite float. *)

Lemma int_raises (s : string) (e : exn) :
  Py.int s = Raise e -> e = ValueError.
Proof.
  unfold Py.int.
  destruct (Py.code_points s) as [cps|]; [|intros H; now injection H].
  destruct (Py.transform cps) as [text|]; [|intros H; now injection H].
  destruct (Py.literal (Py.rstrip (Py.lstrip text))) as [z|];
    [|intros H; now injection H].
  destruct (4300 <? Py.count_digits (Py.rstrip (Py.lstrip text)));
    [intros H; now injection H | discriminate].
Qed.

(** C1, as stated, fails. The claim makes File-Scan-Child the test of bit 1
    and File-Scan the test of bit 0. The record parsed from a payload with
    flag 1 has ['File Scan Child'] true although [(1 >> 1) & 1] is 0, and
    for the payload with flag 7 the only ['File Scan'] value the program
    has, the column that the report assigns, is false. *)
Lemma flag_bit_names_counterexample :
  parse_process_exclusions Py.int Py.float_ok sample_policy
    (one_process_policy "1|0|abcd|C:\bar\baz.exe|1") = Ok [flag1_record]
  /\ File_Scan_Child flag1_record = true
  /\ (Z.land (Z.shiftr (Exclusion_Flag flag1_record) 1) 1 =? 1) = false
  /\ parse_process_exclusions Py.int Py.float_ok sample_policy
       (one_process_policy "1|0|abcd|C:\bar\baz.exe|7") = Ok [flag7_record]
  /\ assign_File_Scan (mkProcessFrame [flag7_record] None)
     = Ok (mkProcessFrame [flag7_record] (Some [false])).
Proof.
  repeat split; reflexivity.
Qed.

Lemma process_flag_bits_witness :
  File_Scan_Child flag7_record = true
  /\ Scan_Files_Written flag7_record = true
  /\ System_Process_Protection flag7_record = true
  /\ System_Process_Protection_Child flag7_record = false
  /\ Malicious_Activity flag7_record = false
  /\ Malicious_Activity_Child flag7_record = false
  /\ Self_Protect flag7_record = false
  /\ Self_Protect_Child flag7_record = false.
Proof.
  apply (process_flag_bits Py.int Py.float_ok sample_policy
           (one_process_policy "1|0|abcd|C:\bar\baz.exe|7")
           [flag7_record] flag7_record).
  - reflexivity.
  - simpl; left; reflexivity.
  - reflexivity.
Defined.

(** C2, as stated, fails: an entry with fewer than 5 fields makes
    [parse_path_exclusions] raise [IndexError], whether it comes after or
    before a well-formed sibling, and the sibling's record is not returned;
    a process entry with fewer than 5 fields makes
    [parse_process_exclusions] raise [IndexError] and one with the flag
    [seven] makes it raise [ValueError]. *)
Lemma malformed_entry_counterexample :
  parse_path_exclusions sample_policy
    (two_path_policy "1|2|x|y|C:\foo" "1|2|x") = Raise IndexError
  /\ parse_path_exclusions sample_policy
       (two_path_policy "1|2|x" "1|2|x|y|C:\foo") = Raise IndexError
  /\ parse_process_exclusions Py.int Py.float_ok sample_policy
       (two_process_policy "1|0|abcd|C:\bar\baz.exe|7" "1|0|abcd")
     = Raise IndexError
  /\ parse_process_exclusions Py.int Py.float_ok sample_policy
       (two_process_policy "1|0|abcd|C:\bar\baz.exe|7"
                           "1|0|abcd|C:\bar\baz.exe|seven")
     = Raise ValueError.
Proof.
  repeat split; reflexivity.
Qed.

Lemma malformed_entry_raises_witness :
  parse_path_exclusions sample_policy
    (two_path_policy "1|2|x|y|C:\foo" "1|2|x") = Raise IndexError
  /\ parse_process_exclusions Py.int Py.float_ok sample_policy
       (two_process_policy "1|0|abcd|C:\bar\baz.exe|7" "1|0|abcd")
     = Raise IndexError
  /\ parse_process_exclusions Py.int Py.float_ok sample_policy
       (two_process_policy "1|0|abcd|C:\bar\baz.exe|7"
                           "1|0|abcd|C:\bar\baz.exe|seven")
     = Raise ValueError.
Proof.
  assert (Hgood : Forall (process_payload_ok Py.int Py.float_ok)
                    [ET.Elem ns_item (Some "1|0|abcd|C:\bar\baz.exe|7") []]).
  { repeat constructor. exists "1|0|abcd|C:\bar\baz.exe|7", "7", 7.
    repeat split; reflexivity. }
  split; [|split].
  - apply (proj1 (malformed_entry_raises Py.int Py.float_ok
                    int_raises sample_policy
                    (two_path_policy "1|2|x|y|C:\foo" "1|2|x"))
             [ET.Elem ns_item (Some "1|2|x|y|C:\foo") []]
             (ET.Elem ns_item (Some "1|2|x") []) [] "1|2|x").
    + reflexivity.
    + reflexivity.
    + simpl; lia.
    + repeat constructor. exists "1|2|x|y|C:\foo".
      split; [reflexivity | simpl; lia].
  - apply (proj2 (malformed_entry_raises Py.int Py.float_ok
                    int_raises sample_policy
                    (two_process_policy "1|0|abcd|C:\bar\baz.exe|7" "1|0|abcd"))
             [ET.Elem ns_item (Some "1|0|abcd|C:\bar\baz.exe|7") []]
             (ET.Elem ns_item (Some "1|0|abcd") []) [] "1|0|abcd").
    + reflexivity.
    + reflexivity.
    + simpl; lia.
    + exact Hgood.
  - apply (proj2 (malformed_entry_raises Py.int Py.float_ok
                    int_raises sample_policy
                    (two_process_policy "1|0|abcd|C:\bar\baz.exe|7"
                                        "1|0|abcd|C:\bar\baz.exe|seven"))
             [ET.Elem ns_item (Some "1|0|abcd|C:\bar\baz.exe|7") []]
             (ET.Elem ns_item (Some "1|0|abcd|C:\bar\baz.exe|seven") []) []
             "1|0|abcd|C:\bar\baz.exe|seven" eq_refl eq_refl) with (f4 := "seven").
    + reflexivity.
    + intros flag H. vm_compute in H. discriminate H.
    + exact Hgood.
Defined.

Lemma no_entries_no_records_witness :
  (parse_path_exclusions sample_policy policy_without_exclusions = Ok []
   /\ parse_process_exclusions Py.int Py.float_ok sample_policy policy_without_exclusions = Ok [])
  /\ parse_path_exclusions sample_policy policy_with_empty_exclusions = Ok []
  /\ parse_process_exclusions Py.int Py.float_ok sample_policy policy_with_empty_exclusions = Ok [].
Proof.
  split; [|split].
  - apply (proj1 (no_entries_no_records Py.int Py.float_ok sample_policy policy_without_exclusions)).
    reflexivity.
  - apply (proj1 (proj2 (no_entries_no_records Py.int Py.float_ok sample_policy
                           policy_with_empty_exclusions))).
    simpl. intros ex i [<-|[]] [<-|[]]. reflexivity.
  - apply (proj2 (proj2 (no_entries_no_records Py.int Py.float_ok sample_policy
                           policy_with_empty_exclusions))).
    simpl. intros ex i [<-|[]] [<-|[]]. reflexivity.
Defined.

Lemma parse_process_succeeds_iff_witness :
  (exists rs,
      parse_process_exclusions Py.int Py.float_ok sample_policy
        (one_process_policy "1|0|abcd|C:\bar\baz.exe|7") = Ok rs)
  /\ (exists rs,
         parse_process_exclusions Py.int Py.float_ok sample_policy
           (one_process_policy "1|0|abcd|C:\bar\baz.exe|٧") = Ok rs).
Proof.
  split.
  - apply (proj2 (proj1 (parse_process_succeeds_iff Py.int Py.float_ok
                           sample_policy
                           (one_process_policy "1|0|abcd|C:\bar\baz.exe|7")))).
    repeat constructor. exists "1|0|abcd|C:\bar\baz.exe|7", "7", 7.
    repeat split; reflexivity.
  - apply (proj2 (proj1 (parse_process_succeeds_iff Py.int Py.float_ok
                           sample_policy
                           (one_process_policy "1|0|abcd|C:\bar\baz.exe|٧")))).
    repeat constructor. exists "1|0|abcd|C:\bar\baz.exe|٧", "٧", 7.
    repeat split; reflexivity.
Defined.

Lemma parse_process_exception_witness :
  exists pre bad post,
    process_entries (two_process_policy "1|0|abcd|C:\bar\baz.exe|7"
                                        "1|0|abcd|C:\bar\baz.exe|179769313486231590772930519078902473361797697894230657273430081157732675805500963132708477322407536021120113879871393357658789768814416622492847430639474124377767893424865485276302219601246094119453082952085005768838150682342462881473913110540827237163350510684586298239947245938479716304835356329624224137216")
    = pre ++ bad :: post
    /\ Forall (process_payload_ok Py.int Py.float_ok) pre
    /\ ((OverflowError = AttributeError /\ ET.text bad = None)
        \/ (OverflowError = IndexError
            /\ exists t, ET.text bad = Some t /\ (count_char "|" t < 4)%nat)
        \/ (OverflowError = ValueError
            /\ exists t f4, ET.text bad = Some t
                            /\ nth_error (Py.split "|" t) 4 = Some f4
                            /\ Py.int f4 = Raise ValueError)
        \/ (OverflowError = OverflowError
            /\ exists t f4 flag, ET.text bad = Some t
                                 /\ nth_error (Py.split "|" t) 4 = Some f4
                                 /\ Py.int f4 = Ok flag
                                 /\ Py.float_ok flag = false)).
Proof.
  apply (parse_process_exception Py.int Py.float_ok int_raises
           sample_policy
           (two_process_policy "1|0|abcd|C:\bar\baz.exe|7"
                               "1|0|abcd|C:\bar\baz.exe|179769313486231590772930519078902473361797697894230657273430081157732675805500963132708477322407536021120113879871393357658789768814416622492847430639474124377767893424865485276302219601246094119453082952085005768838150682342462881473913110540827237163350510684586298239947245938479716304835356329624224137216")
           OverflowError).
  vm_compute. reflexivity.
Defined.

Lemma process_record_fields_witness :
  Forall2 (fun item r =>
             exists t f4,
               ET.text item = Some t
               /\ Policy_Name r = name sample_policy
               /\ Policy_GUID r = guid sample_policy
               /\ Polcy_Class r = "process"
               /\ nth_error (Py.split "|" t) 0 = Some (Exclusion_Version r)
               /\ nth_error (Py.split "|" t) 1 = Some (Exclusion_Auth_Type r)
               /\ nth_error (Py.split "|" t) 2 = Some (Exclusion_Hash r)
               /\ nth_error (Py.split "|" t) 3 = Some (Exclusion_Path r)
               /\ nth_error (Py.split "|" t) 4 = Some f4
               /\ Py.int f4 = Ok (Exclusion_Flag r))
          (process_entries (one_process_policy "1|0|abcd|C:\bar\baz.exe|7"))
          [flag7_record].
Proof.
  apply (process_record_fields Py.int Py.float_ok sample_policy
           (one_process_policy "1|0|abcd|C:\bar\baz.exe|7") [flag7_record]).
  reflexivity.
Defined.

Lemma record_fields_without_pipe_witness :
  count_char "|" (e_type (mkPathExclusion "P" "g" "path" "2" "C:\a")) = 0%nat
  /\ count_char "|" (e_value (mkPathExclusion "P" "g" "path" "2" "C:\a")) = 0%nat.
Proof.
  apply (proj1 (record_fields_without_pipe Py.int Py.float_ok sample_policy
                  (two_path_policy "1|2|x|y|C:\a|b" "1|2|x|y|C:\a"))
           [mkPathExclusion "P" "g" "path" "2" "C:\a";
            mkPathExclusion "P" "g" "path" "2" "C:\a"]).
  - reflexivity.
  - simpl. left. reflexivity.
Defined.

Lemma decoded_bits_low_byte_witness :
  bits_value (decoded_bits flag7_record) = Exclusion_Flag flag7_record mod 256
  /\ decoded_bits flag7_record
     = decoded_bits (sample_record 263 true true true false false false false false).
Proof.
  destruct (decoded_bits_low_byte Py.int Py.float_ok sample_policy sample_policy
              (one_process_policy "1|0|abcd|C:\bar\baz.exe|7")
              (one_process_policy "1|0|abcd|C:\bar\baz.exe|263")
              [flag7_record]
              [sample_record 263 true true true false false false false false]
              flag7_record
              (sample_record 263 true true true false false false false false))
    as [Hval Hsame].
  - reflexivity.
  - simpl; left; reflexivity.
  - reflexivity.
  - simpl; left; reflexivity.
  - split; [exact Hval | apply Hsame; reflexivity].
Defined.

Lemma file_scan_and_decoded_bits_witness :
  Py.in_range 0 3 (Exclusion_Flag flag1_record) = true
  <-> 0 <= Exclusion_Flag flag1_record < 256
      /\ System_Process_Protection flag1_record = false
      /\ System_Process_Protection_Child flag1_record = false
      /\ Malicious_Activity flag1_record = false
      /\ Malicious_Activity_Child flag1_record = false
      /\ Self_Protect flag1_record = false
      /\ Self_Protect_Child flag1_record = false
      /\ File_Scan_Child flag1_record && Scan_Files_Written flag1_record = false.
Proof.
  apply (file_scan_and_decoded_bits Py.int Py.float_ok sample_policy
           (one_process_policy "1|0|abcd|C:\bar\baz.exe|1")
           [flag1_record] flag1_record).
  - reflexivity.
  - simpl; left; reflexivity.
Defined.

Lemma collected_frames_witness :
  (forall r, In r (fst (sample_frames Py.int Py.float_ok)) ->
             exists policy xml,
               In (policy, xml) sample_run
               /\ p_name r = name policy /\ p_guid r = guid policy
               /\ e_class r = "path")
  /\ (forall r, In r (snd (sample_frames Py.int Py.float_ok)) ->
                exists policy xml,
                  In (policy, xml) sample_run
                  /\ Policy_Name r = name policy /\ Policy_GUID r = guid policy
                  /\ Polcy_Class r = "process")
  /\ List.length (fst (sample_frames Py.int Py.float_ok))
     = List.length (flat_map (fun f => path_entries (snd f)) sample_run)
  /\ List.length (snd (sample_frames Py.int Py.float_ok))
     = List.length (flat_map (fun f => process_entries (snd f)) sample_run).
Proof.
  apply (collected_frames Py.int Py.float_ok sample_run (fst (sample_frames Py.int Py.float_ok)) (snd (sample_frames Py.int Py.float_ok))).
  reflexivity.
Defined.

Lemma main_aborts_on_malformed_entry_witness :
  exists e,
    main Py.int Py.float_ok sample_bad_run = Raise e
    /\ (e = AttributeError \/ e = IndexError \/ e = ValueError
        \/ e = OverflowError).
Proof.
  apply (main_aborts_on_malformed_entry Py.int Py.float_ok int_raises sample_bad_run
           (mkPolicy "B" "guid-b", two_path_policy "1|2|x|y|C:\foo" "1|2|x")).
  - simpl. right. left. reflexivity.
  - left. simpl. apply Exists_cons_tl, Exists_cons_hd.
    intros (t & Ht & Hn). injection Ht as <-. simpl in Hn. lia.
Defined.

Lemma main_needs_both_kinds_witness :
  main Py.int Py.float_ok [(sample_policy, policy_with_empty_exclusions)] = Raise AttributeError
  /\ main Py.int Py.float_ok [(sample_policy, two_path_policy "1|2|x|y|C:\foo" "1|3|x|y|.log")]
     = Raise KeyError.
Proof.
  split.
  - apply (proj1 (main_needs_both_kinds Py.int Py.float_ok _)).
    repeat constructor.
  - apply (proj2 (main_needs_both_kinds Py.int Py.float_ok _)
             [mkPathExclusion "P" "g" "path" "2" "C:\foo";
              mkPathExclusion "P" "g" "path" "3" ".log"]).
    + reflexivity.
    + discriminate.
    + simpl. intros [H|[H|[]]]; discriminate.
    + simpl. intros [H|[H|[]]]; discriminate.
Defined.

Lemma main_completion_order_witness :
  main Py.int Py.float_ok (rev sample_run) = main Py.int Py.float_ok sample_run.
Proof.
  destruct (main Py.int Py.float_ok sample_run) as [rep|e] eqn:E; [|discriminate E].
  apply (main_completion_order Py.int Py.float_ok sample_run (rev sample_run) rep).
  - apply Permutation_rev.
  - exact E.
Defined.

Lemma run_pivot_counts_flag_bits_witness :
  Pd.loc summary_columns [2; 1; 0; 0; 0; 0; 2] "File Scan Child"
  = Ok (Pd.count (fun r => String.eqb (Policy_Name r) "A"
                           && Z.testbit (Exclusion_Flag r) 0)
                 (snd (sample_frames Py.int Py.float_ok))).
Proof.
  destruct (main Py.int Py.float_ok sample_run) as [rep|e] eqn:E; [|discriminate E].
  assert (Hrow : In ("A", [2; 1; 0; 0; 0; 0; 2]) (rows (pvt_process rep))).
  { revert E. vm_compute. intros E. injection E as <-. left. reflexivity. }
  pose proof (run_pivot_counts_flag_bits Py.int Py.float_ok sample_run (fst (sample_frames Py.int Py.float_ok))
                (snd (sample_frames Py.int Py.float_ok)) rep "A" [2; 1; 0; 0; 0; 0; 2]
                eq_refl E Hrow) as H.
  cbv beta zeta in H. destruct H as (H0 & _ & _ & _ & _ & Hcols).
  rewrite Hcols in H0. exact H0.
Defined.

